(** * The adaptive time-stepping loop of [src/kernel/ode/TimeStepper.cpp]

    A shallow embedding of [TimeStepper] and a verification of the
    properties its specification states.

    Conventions of the embedding.
    - In the embedding of the stepper the C++ type [real] is the exact
      rationals [Q]: [==] on [real] is [Qeq], [<] is [Qlt].  This is
      faithful for what the control flow does with [t] and [T] (copies and
      comparisons); it is not faithful for the arithmetic of [save], whose
      sample times are sums and quotients rounded to double precision.
      [save] is therefore embedded a second time, over binary64 floats, in
      the module [Double]; what is stated about which times are sampled is
      stated there.
    - [unsigned int] values ([N], [m]) are never computed with by the
      stepper, only stored and handed on, so they are embedded as [Z].
    - The stepper is an object whose methods mutate its members and the
      collaborators it owns; the embedding is a state monad over the record
      of members.  [None] stands for a loop that does not come back.
    - Every call the stepper makes on a collaborator is also appended to the
      member [calls], so that theorems can speak about which calls were made
      and in which order. *)

From Stdlib Require Import QArith Qround ZArith List Bool Lia Lqa Sorted.
From Stdlib Require PrimFloat FloatOps Uint63.
Import ListNotations.
Open Scope Q_scope.

Definition real : Type := Q.

(** [std::min(a, b)] is [(b < a) ? b : a]. *)
Definition std_min (a b : real) : real :=
  if Qlt_le_dec b a then b else a.

(** [ceil] of [<cmath>], on exact rationals. *)
Definition ceil (x : real) : real := inject_Z (Qceiling x).

(** ** The ODE interface consumed by the stepper *)

(** Modelled from the spec: the class [ODE] (not part of the shown source).
    It exposes [size()], [endtime()] and the initial data from which the
    solution is built. *)
Record ODE : Type := mkODE {
  ode_size : Z;
  ode_endtime : real;
  ode_u0 : list real
}.

(** ** Solution state *)

Module Solution.

(** Modelled from the spec: the class [Solution] (not part of the shown
    source).  The spec describes an ordered sequence of real values that
    the iteration mutates in place, with [reset()] restoring the state at
    the start of the attempt and [shift(t)] committing the current values
    as the accepted state at the new base time [t]. *)
Record t : Type := mk {
  values : list real;
  committed : list real;
  basetime : real
}.

Definition create (ode : ODE) : t :=
  {| values := ode_u0 ode; committed := ode_u0 ode; basetime := 0 |}.

Definition reset (u : t) : t :=
  {| values := committed u; committed := committed u;
     basetime := basetime u |}.

Definition shift (t0 : real) (u : t) : t :=
  {| values := values u; committed := values u; basetime := t0 |}.

(** In-place update of the tentative values by the iteration. *)
Definition update (v : list real) (u : t) : t :=
  {| values := v; committed := committed u; basetime := basetime u |}.

(** No tentative update is pending. *)
Definition clean (u : t) : Prop := values u = committed u.

End Solution.

(** ** Time slabs *)

Module TimeSlab.

(** Modelled from the spec: the class [TimeSlab] (not part of the shown
    source): a tentative interval that supplies [starttime()],
    [endtime()], [length()] and [finished()], the latter true iff
    [endtime() == T].  [reach] is the end time [T] the slab was built
    towards. *)
Record t : Type := mk {
  starttime : real;
  endtime : real;
  reach : real
}.

Definition length (slab : t) : real := endtime slab - starttime slab.

Definition finished (slab : t) : bool := Qeq_bool (endtime slab) (reach slab).

(** Modelled from the spec: the invariant [start < end <= T] the spec
    states for every time slab. *)
Definition invariant (slab : t) : Prop :=
  starttime slab < endtime slab /\ endtime slab <= reach slab.

(** The same invariant as a test. *)
Definition invariantb (slab : t) : bool :=
  negb (Qle_bool (endtime slab) (starttime slab)) &&
  Qle_bool (endtime slab) (reach slab).

End TimeSlab.

(** ** Samples and the call log *)

(** [Sample sample(u, f, t)]: the solution values together with the sample
    time. *)
Record Sample : Type := mkSample {
  sample_u : list real;
  sample_t : real
}.

Inductive Call : Type :=
| New_SimpleTimeSlab (slab : TimeSlab.t)
| New_RecursiveTimeSlab (slab : TimeSlab.t)
| Call_iterate (slab : TimeSlab.t)
| Call_stabilization
| Call_Adaptivity_stabilize (k : real) (m : Z)
| Call_fixed
| Call_accept (slab : TimeSlab.t)
| Call_Adaptivity_shift (u : Solution.t)
| Call_reset
| Call_Solution_shift (t0 : real).

(** ** The collaborators *)

(** The fixed-point iteration, the adaptivity controller and the slab
    construction logic are not part of the shown source; they are taken as
    parameters.  [slab_end_simple] and [slab_end_recursive] are the end time
    chosen by the constructors [SimpleTimeSlab(t, T, u, adaptivity)] and
    [RecursiveTimeSlab(t, T, u, f, adaptivity, fixpoint, partition, 0)]. *)
Class Collaborators : Type := {
  Adaptivity : Type;
  FixedPointIteration : Type;
  Adaptivity_create : ODE -> Adaptivity;
  FixedPointIteration_create : ODE -> FixedPointIteration;
  slab_end_simple : real -> real -> Solution.t -> Adaptivity -> real;
  slab_end_recursive :
    real -> real -> Solution.t -> Adaptivity -> FixedPointIteration -> real;
  FixedPointIteration_iterate :
    TimeSlab.t -> Solution.t -> Adaptivity -> FixedPointIteration ->
    bool * (list real * Adaptivity * FixedPointIteration);
  FixedPointIteration_stabilization :
    FixedPointIteration -> real -> Z -> real * Z;
  Adaptivity_fixed : Adaptivity -> bool;
  Adaptivity_accept : TimeSlab.t -> Solution.t -> Adaptivity -> bool;
  Adaptivity_shift : Solution.t -> Adaptivity -> Adaptivity;
  Adaptivity_stabilize : real -> Z -> Adaptivity -> Adaptivity
}.

Section Stepper.

Context {C : Collaborators}.

(** ** The members of [TimeStepper] *)

(** [partition] is built once from [N] and never changed, and [f] holds no
    state of its own; both live inside the collaborators' functions. *)
Record TimeStepper : Type := mkTimeStepper {
  no_samples : Z;
  N : Z;
  t : real;
  T : real;
  adaptivity : Adaptivity;
  u : Solution.t;
  fixpoint : FixedPointIteration;
  file : list Sample;
  p : real;
  _finished : bool;
  save_solution : bool;
  calls : list Call
}.

Definition set_t (x : real) (s : TimeStepper) : TimeStepper :=
  mkTimeStepper (no_samples s) (N s) x (T s) (adaptivity s) (u s)
    (fixpoint s) (file s) (p s) (_finished s) (save_solution s) (calls s).

Definition set_adaptivity (x : Adaptivity) (s : TimeStepper) : TimeStepper :=
  mkTimeStepper (no_samples s) (N s) (t s) (T s) x (u s)
    (fixpoint s) (file s) (p s) (_finished s) (save_solution s) (calls s).

Definition set_u (x : Solution.t) (s : TimeStepper) : TimeStepper :=
  mkTimeStepper (no_samples s) (N s) (t s) (T s) (adaptivity s) x
    (fixpoint s) (file s) (p s) (_finished s) (save_solution s) (calls s).

Definition set_fixpoint (x : FixedPointIteration) (s : TimeStepper)
  : TimeStepper :=
  mkTimeStepper (no_samples s) (N s) (t s) (T s) (adaptivity s) (u s)
    x (file s) (p s) (_finished s) (save_solution s) (calls s).

Definition set_file (x : list Sample) (s : TimeStepper) : TimeStepper :=
  mkTimeStepper (no_samples s) (N s) (t s) (T s) (adaptivity s) (u s)
    (fixpoint s) x (p s) (_finished s) (save_solution s) (calls s).

Definition set_p (x : real) (s : TimeStepper) : TimeStepper :=
  mkTimeStepper (no_samples s) (N s) (t s) (T s) (adaptivity s) (u s)
    (fixpoint s) (file s) x (_finished s) (save_solution s) (calls s).

Definition set_finished (x : bool) (s : TimeStepper) : TimeStepper :=
  mkTimeStepper (no_samples s) (N s) (t s) (T s) (adaptivity s) (u s)
    (fixpoint s) (file s) (p s) x (save_solution s) (calls s).

Definition log (c : Call) (s : TimeStepper) : TimeStepper :=
  mkTimeStepper (no_samples s) (N s) (t s) (T s) (adaptivity s) (u s)
    (fixpoint s) (file s) (p s) (_finished s) (save_solution s)
    (calls s ++ [c]).

(** ** The monad of the stepper's methods *)

Definition M (X : Type) : Type := TimeStepper -> option (X * TimeStepper).

Definition ret {X : Type} (x : X) : M X := fun s => Some (x, s).

Definition bind {X Y : Type} (m : M X) (k : X -> M Y) : M Y :=
  fun s => match m s with
           | Some (x, s') => k x s'
           | None => None
           end.

Definition diverge {X : Type} : M X := fun _ => None.

Definition gets {X : Type} (g : TimeStepper -> X) : M X :=
  fun s => Some (g s, s).

Definition modify (g : TimeStepper -> TimeStepper) : M unit :=
  fun s => Some (tt, g s).

Notation "x <- m ;; k" := (bind m (fun x => k))
  (at level 61, m at next level, right associativity).
Notation "m ;; k" := (bind m (fun _ => k))
  (at level 61, right associativity).

(** ** Calls on the collaborators *)

(** [SimpleTimeSlab timeslab(t, T, u, adaptivity)] *)
Definition SimpleTimeSlab (s : TimeStepper) : TimeSlab.t :=
  TimeSlab.mk (t s) (slab_end_simple (t s) (T s) (u s) (adaptivity s)) (T s).

(** [RecursiveTimeSlab timeslab(t, T, u, f, adaptivity, fixpoint, partition, 0)] *)
Definition RecursiveTimeSlab (s : TimeStepper) : TimeSlab.t :=
  TimeSlab.mk (t s)
    (slab_end_recursive (t s) (T s) (u s) (adaptivity s) (fixpoint s)) (T s).

Definition new_SimpleTimeSlab : M TimeSlab.t :=
  fun s => Some (SimpleTimeSlab s, log (New_SimpleTimeSlab (SimpleTimeSlab s)) s).

Definition new_RecursiveTimeSlab : M TimeSlab.t :=
  fun s => Some (RecursiveTimeSlab s,
                 log (New_RecursiveTimeSlab (RecursiveTimeSlab s)) s).

(** [fixpoint.iterate(timeslab)]: the engine holds references to [u] and
    [adaptivity] and may change them and itself. *)
Definition fixpoint_iterate (timeslab : TimeSlab.t) : M bool :=
  fun s =>
    let '(ok, (v, a, fx)) :=
      FixedPointIteration_iterate timeslab (u s) (adaptivity s) (fixpoint s) in
    Some (ok, log (Call_iterate timeslab)
                (set_fixpoint fx
                   (set_adaptivity a (set_u (Solution.update v (u s)) s)))).

(** [fixpoint.stabilization(alpha, m)], both arguments by reference. *)
Definition fixpoint_stabilization (alpha : real) (m : Z) : M (real * Z) :=
  fun s => Some (FixedPointIteration_stabilization (fixpoint s) alpha m,
                 log Call_stabilization s).

(** [adaptivity.stabilize(k, m)] *)
Definition adaptivity_stabilize (k : real) (m : Z) : M unit :=
  modify (fun s => log (Call_Adaptivity_stabilize k m)
                     (set_adaptivity (Adaptivity_stabilize k m (adaptivity s)) s)).

(** [adaptivity.fixed()] *)
Definition adaptivity_fixed : M bool :=
  fun s => Some (Adaptivity_fixed (adaptivity s), log Call_fixed s).

(** [adaptivity.accept(timeslab, f)] *)
Definition adaptivity_accept (timeslab : TimeSlab.t) : M bool :=
  fun s => Some (Adaptivity_accept timeslab (u s) (adaptivity s),
                 log (Call_accept timeslab) s).

(** [adaptivity.shift(u, f)] *)
Definition adaptivity_shift : M unit :=
  modify (fun s => log (Call_Adaptivity_shift (u s))
                     (set_adaptivity (Adaptivity_shift (u s) (adaptivity s)) s)).

(** [u.reset()] *)
Definition u_reset : M unit :=
  modify (fun s => log Call_reset (set_u (Solution.reset (u s)) s)).

(** [u.shift(t)] *)
Definition u_shift (t0 : real) : M unit :=
  modify (fun s => log (Call_Solution_shift t0)
                     (set_u (Solution.shift t0 (u s)) s)).

(** [Sample sample(u, f, t); file << sample;] *)
Definition write_sample (t0 : real) : M unit :=
  modify (fun s => set_file (file s ++ [mkSample (Solution.values (u s)) t0]) s).

(** ** The methods of [TimeStepper] *)

(** The constructor, lines 20-30.  [p("Time-stepping")] starts the progress
    at [0]; the sample file starts empty. *)
Definition TimeStepper_create (ode : ODE) (number_of_samples : Z)
    (save_solution_flag : bool) : TimeStepper :=
  {| no_samples := number_of_samples;
     N := ode_size ode;
     t := 0;
     T := ode_endtime ode;
     adaptivity := Adaptivity_create ode;
     u := Solution.create ode;
     fixpoint := FixedPointIteration_create ode;
     file := [];
     p := 0;
     _finished := false;
     save_solution := save_solution_flag;
     calls := [] |}.

(** [TimeStepper::finished], lines 57-60. *)
Definition finished : M bool := gets _finished.

(** [TimeStepper::stabilize], lines 197-209. *)
Definition stabilize (K : real) : M unit :=
  am <- fixpoint_stabilization 1 0%Z ;;
  let alpha := fst am in
  let m := snd am in
  let k := std_min alpha (1 # 2) * K in
  adaptivity_stabilize k m.

(** [TimeStepper::shift], lines 163-170. *)
Definition shift : M unit :=
  adaptivity_shift ;;
  t0 <- gets t ;;
  u_shift t0.

(** The [while] loop of [TimeStepper::save], lines 183-188; the local
    variable [t] of the source is [t0] here.  The sums [t0 + K] are exact
    in this rendering; the rendering with every sum rounded to double
    precision is [Double.save_loop]. *)
Fixpoint save_loop (fuel : nat) (K t0 e : real) : M unit :=
  if Qlt_le_dec t0 e then
    match fuel with
    | O => diverge
    | S fuel' => write_sample t0 ;; save_loop fuel' K (t0 + K) e
    end
  else ret tt.

(** [TimeStepper::save], lines 172-195, in exact arithmetic (where a
    quotient by [0] is [0]); the rendering in double precision, where
    [T / 0] is an infinity and the first sample time a NaN, is
    [Double.save]. *)
Definition save (fuel : nat) (timeslab : TimeSlab.t) : M unit :=
  sv <- gets save_solution ;;
  if negb sv then ret tt
  else
    T0 <- gets T ;;
    n <- gets no_samples ;;
    let K := T0 / inject_Z n in
    let t0 := ceil (TimeSlab.starttime timeslab / K) * K in
    save_loop fuel K t0 (TimeSlab.endtime timeslab) ;;
    if TimeSlab.finished timeslab
    then write_sample (TimeSlab.endtime timeslab)
    else ret tt.

(** The statements that follow a converged and accepted iteration: lines
    95-114 of [createFirstTimeSlab], repeated word for word as lines 141-160
    of [createGeneralTimeSlab]. *)
Definition commit (fuel : nat) (timeslab : TimeSlab.t) : M bool :=
  modify (set_t (TimeSlab.endtime timeslab)) ;;
  save fuel timeslab ;;
  shift ;;
  modify (fun s => set_p (t s / T s) s) ;;
  (if TimeSlab.finished timeslab
   then modify (set_finished true) ;; modify (set_p 1)
   else ret tt) ;;
  ret true.

(** [TimeStepper::createFirstTimeSlab], lines 70-115. *)
Definition createFirstTimeSlab (fuel : nat) : M bool :=
  timeslab <- new_SimpleTimeSlab ;;
  ok <- fixpoint_iterate timeslab ;;
  if negb ok then
    stabilize (TimeSlab.length timeslab) ;;
    u_reset ;;
    ret false
  else
    fx <- adaptivity_fixed ;;
    if negb fx then
      acc <- adaptivity_accept timeslab ;;
      if negb acc then
        adaptivity_shift ;;
        u_reset ;;
        ret false
      else commit fuel timeslab
    else commit fuel timeslab.

(** [TimeStepper::createGeneralTimeSlab], lines 117-161; the residual check
    of lines 130-139 is inside a comment in the source and is not run. *)
Definition createGeneralTimeSlab (fuel : nat) : M bool :=
  timeslab <- new_RecursiveTimeSlab ;;
  ok <- fixpoint_iterate timeslab ;;
  if negb ok then
    stabilize (TimeSlab.length timeslab) ;;
    u_reset ;;
    ret false
  else commit fuel timeslab.

(** [TimeStepper::createTimeSlab], lines 62-68. *)
Definition createTimeSlab (fuel : nat) : M bool :=
  t0 <- gets t ;;
  if Qeq_bool t0 0 then createFirstTimeSlab fuel
  else createGeneralTimeSlab fuel.

(** [while ( !createTimeSlab() );] of [TimeStepper::step], line 52, with at
    most [n] attempts. *)
Fixpoint step_loop (n fuel : nat) : M unit :=
  match n with
  | O => diverge
  | S n' =>
      ok <- createTimeSlab fuel ;;
      if negb ok then step_loop n' fuel else ret tt
  end.

(** [TimeStepper::step], lines 49-55. *)
Definition step (fuel : nat) : M real :=
  step_loop fuel fuel ;;
  gets t.

(** The loop of [TimeStepper::solve], lines 45-46, with at most [n] steps. *)
Fixpoint solve_loop (n fuel : nat) : M unit :=
  match n with
  | O => diverge
  | S n' =>
      fin <- finished ;;
      if negb fin then step fuel ;; solve_loop n' fuel else ret tt
  end.

(** [TimeStepper::solve], lines 39-47. *)
Definition solve (fuel : nat) (ode : ODE) (number_of_samples : Z)
    (save_solution_flag : bool) : option TimeStepper :=
  match solve_loop fuel fuel
          (TimeStepper_create ode number_of_samples save_solution_flag) with
  | Some (_, s) => Some s
  | None => None
  end.

(** ** Notions used to state the properties *)

(** The slab the next attempt builds. *)
Definition next_slab (s : TimeStepper) : TimeSlab.t :=
  if Qeq_bool (t s) 0 then SimpleTimeSlab s else RecursiveTimeSlab s.

(** Outcome of [fixpoint.iterate(timeslab)] and the members after it. *)
Definition converged (timeslab : TimeSlab.t) (s : TimeStepper) : bool :=
  fst (FixedPointIteration_iterate timeslab (u s) (adaptivity s) (fixpoint s)).

Definition iterated (timeslab : TimeSlab.t) (s : TimeStepper) : TimeStepper :=
  let r := snd (FixedPointIteration_iterate timeslab (u s) (adaptivity s)
                  (fixpoint s)) in
  log (Call_iterate timeslab)
    (set_fixpoint (snd r)
       (set_adaptivity (snd (fst r))
          (set_u (Solution.update (fst (fst r)) (u s)) s))).

(** What the engine reports to [stabilize] in state [s]. *)
Definition reported (s : TimeStepper) : real * Z :=
  FixedPointIteration_stabilization (fixpoint s) 1 0%Z.

(** The sample interval [K] of [save]. *)
Definition cadence (s : TimeStepper) : real := T s / inject_Z (no_samples s).

(** The times written by the loop of [save], as a function. *)
Fixpoint loop_times (fuel : nat) (K t0 e : real) : option (list real) :=
  if Qlt_le_dec t0 e then
    match fuel with
    | O => None
    | S fuel' =>
        match loop_times fuel' K (t0 + K) e with
        | Some l => Some (t0 :: l)
        | None => None
        end
    end
  else Some [].

(** The sample times [save] writes for a slab, as a function. *)
Definition saved_times (fuel : nat) (timeslab : TimeSlab.t) (s : TimeStepper)
  : option (list real) :=
  if negb (save_solution s) then Some []
  else
    match loop_times fuel (cadence s)
            (ceil (TimeSlab.starttime timeslab / cadence s) * cadence s)
            (TimeSlab.endtime timeslab) with
    | Some l =>
        Some (l ++ if TimeSlab.finished timeslab
                   then [TimeSlab.endtime timeslab] else [])
    | None => None
    end.

(** The members after an accepted slab whose samples were taken at [times]. *)
Definition accepted_state (timeslab : TimeSlab.t) (times : list real)
    (s : TimeStepper) : TimeStepper :=
  let e := TimeSlab.endtime timeslab in
  {| no_samples := no_samples s;
     N := N s;
     t := e;
     T := T s;
     adaptivity := Adaptivity_shift (u s) (adaptivity s);
     u := Solution.shift e (u s);
     fixpoint := fixpoint s;
     file := file s ++ map (mkSample (Solution.values (u s))) times;
     p := if TimeSlab.finished timeslab then 1 else e / T s;
     _finished := if TimeSlab.finished timeslab then true else _finished s;
     save_solution := save_solution s;
     calls := calls s ++ [Call_Adaptivity_shift (u s); Call_Solution_shift e] |}.

(** The members after [stabilize(K); u.reset();]. *)
Definition stabilized_state (K : real) (s : TimeStepper) : TimeStepper :=
  let alpha := fst (reported s) in
  let m := snd (reported s) in
  let k := std_min alpha (1 # 2) * K in
  {| no_samples := no_samples s;
     N := N s;
     t := t s;
     T := T s;
     adaptivity := Adaptivity_stabilize k m (adaptivity s);
     u := Solution.reset (u s);
     fixpoint := fixpoint s;
     file := file s;
     p := p s;
     _finished := _finished s;
     save_solution := save_solution s;
     calls := calls s ++
              [Call_stabilization; Call_Adaptivity_stabilize k m; Call_reset] |}.

(** The members after [adaptivity.shift(u, f); u.reset();]. *)
Definition refused_state (s : TimeStepper) : TimeStepper :=
  {| no_samples := no_samples s;
     N := N s;
     t := t s;
     T := T s;
     adaptivity := Adaptivity_shift (u s) (adaptivity s);
     u := Solution.reset (u s);
     fixpoint := fixpoint s;
     file := file s;
     p := p s;
     _finished := _finished s;
     save_solution := save_solution s;
     calls := calls s ++ [Call_Adaptivity_shift (u s); Call_reset] |}.

(** The members after the next attempt has built its slab and run the
    iteration on it. *)
Definition tried (s : TimeStepper) : TimeStepper :=
  if Qeq_bool (t s) 0
  then iterated (SimpleTimeSlab s) (log (New_SimpleTimeSlab (SimpleTimeSlab s)) s)
  else iterated (RecursiveTimeSlab s)
         (log (New_RecursiveTimeSlab (RecursiveTimeSlab s)) s).

(** The arguments of the calls [adaptivity.stabilize(k, m)] in a call log. *)
Definition stabilize_calls (cs : list Call) : list (real * Z) :=
  flat_map (fun c => match c with
                     | Call_Adaptivity_stabilize k m => [(k, m)]
                     | _ => []
                     end) cs.

(** What an attempt that ends in a failed iteration leaves behind: [built]
    is the logged construction of [slab], [s] the members before the attempt
    and [s'] the members after it. *)
Definition rejected_on_divergence (built : Call) (slab : TimeSlab.t)
    (s s' : TimeStepper) : Prop :=
  let s1 := iterated slab s in
  let alpha := fst (reported s1) in
  let m := snd (reported s1) in
  let k := std_min alpha (1 # 2) * TimeSlab.length slab in
  calls s' = calls s ++ [built; Call_iterate slab; Call_stabilization;
                         Call_Adaptivity_stabilize k m; Call_reset] /\
  adaptivity s' = Adaptivity_stabilize k m (adaptivity s1) /\
  u s' = Solution.reset (u s1) /\
  Solution.values (u s') = Solution.committed (u s) /\
  Solution.committed (u s') = Solution.committed (u s) /\
  Solution.basetime (u s') = Solution.basetime (u s) /\
  (Solution.clean (u s) -> u s' = u s) /\
  t s' = t s /\ p s' = p s /\ _finished s' = _finished s /\
  file s' = file s.

(** [attempts fuel n s s']: from [s], [n - 1] rejected attempts followed by
    one accepted attempt lead to [s']. *)
Inductive attempts (fuel : nat) : nat -> TimeStepper -> TimeStepper -> Prop :=
| attempts_accepted s s' :
    createTimeSlab fuel s = Some (true, s') ->
    attempts fuel 1 s s'
| attempts_rejected n s s1 s' :
    createTimeSlab fuel s = Some (false, s1) ->
    attempts fuel n s1 s' ->
    attempts fuel (S n) s s'.

(** [run s0 l s]: the attempts made by [solve] can lead from [s0] to [s],
    and [l] lists the slabs accepted on the way, oldest first.  As in
    [solve], an attempt is made only while the stepper is not finished. *)
Inductive run (s0 : TimeStepper) : list TimeSlab.t -> TimeStepper -> Prop :=
| run_start : run s0 [] s0
| run_rejected l s s' fuel :
    run s0 l s ->
    _finished s = false ->
    createTimeSlab fuel s = Some (false, s') ->
    run s0 l s'
| run_accepted l s s' fuel :
    run s0 l s ->
    _finished s = false ->
    createTimeSlab fuel s = Some (true, s') ->
    run s0 (l ++ [next_slab s]) s'.

(** An executable [run]: at most [n] attempts, collecting the accepted
    slabs. *)
Fixpoint run_exec (n fuel : nat) (l : list TimeSlab.t) (s : TimeStepper)
  : option (list TimeSlab.t * TimeStepper) :=
  match n with
  | O => Some (l, s)
  | S n' =>
      if _finished s then Some (l, s)
      else
        match createTimeSlab fuel s with
        | Some (true, s') => run_exec n' fuel (l ++ [next_slab s]) s'
        | Some (false, s') => run_exec n' fuel l s'
        | None => None
        end
  end.

End Stepper.

(** ** Configurations the spec calls invalid *)

Definition invalid_configuration (ode : ODE) (number_of_samples : Z) : Prop :=
  ode_size ode = 0%Z \/ ode_endtime ode <= 0 \/ (number_of_samples <= 0)%Z.

(** The problem of size [0] with end time [0]. *)
Definition empty_ode : ODE :=
  {| ode_size := 0; ode_endtime := 0; ode_u0 := [] |}.

(** ** Chains of slabs *)

(** [consecutive t0 l]: the first slab of [l] starts at [t0] and every later
    one starts where the one before it ends. *)
Fixpoint consecutive (t0 : real) (l : list TimeSlab.t) : Prop :=
  match l with
  | [] => True
  | slab :: l' =>
      TimeSlab.starttime slab = t0 /\ consecutive (TimeSlab.endtime slab) l'
  end.

(** The end time of the last slab of [l], or [t0] when there is none. *)
Definition last_end (t0 : real) (l : list TimeSlab.t) : real :=
  fold_left (fun _ slab => TimeSlab.endtime slab) l t0.

(** ** Integer ranges and the multiples of the sample interval *)

(** [zseq a n] is [a, a+1, ..., a+n-1]. *)
Fixpoint zseq (a : Z) (n : nat) : list Z :=
  match n with
  | O => []
  | S n' => a :: zseq (a + 1) n'
  end.

(** [zrange a b] lists the integers [j] with [a <= j < b], in order. *)
Definition zrange (a b : Z) : list Z := zseq a (Z.to_nat (b - a)).


(** ** A small concrete set of collaborators

    An explicit-Euler iteration for [dy/dt = -y] that converges on slabs of
    length at most [1], a controller whose whole state is its current step
    size and which accepts slabs of length at most [1/2], and slab
    constructors that take one controller step, clipped to the end time.
    [fixed_step] is the controller's fixed-step flag; [damping] is what the
    iteration reports as [alpha] and [m] ([None]: it leaves both as they
    are). *)
Definition toy_slab_end (t0 t1 k : real) : real :=
  if Qlt_le_dec 0 k then std_min (t0 + k) t1 else t1.

Definition toy (fixed_step : bool) (damping : option (real * Z))
  : Collaborators :=
  {| Adaptivity := real;
     FixedPointIteration := nat;
     Adaptivity_create := fun ode => 4;
     FixedPointIteration_create := fun _ => O;
     slab_end_simple := fun t0 t1 _ k => toy_slab_end t0 t1 k;
     slab_end_recursive := fun t0 t1 _ k _ => toy_slab_end t0 t1 k;
     FixedPointIteration_iterate := fun slab u0 k n =>
       (Qle_bool (TimeSlab.length slab) 1,
        (map (fun y => y * (1 - TimeSlab.length slab)) (Solution.values u0),
         k, S n));
     FixedPointIteration_stabilization := fun _ alpha m =>
       match damping with
       | Some am => am
       | None => (alpha, m)
       end;
     Adaptivity_fixed := fun _ => fixed_step;
     Adaptivity_accept := fun slab _ _ =>
       Qle_bool (TimeSlab.length slab) (1 # 2);
     Adaptivity_shift := fun _ k => if Qle_bool k (1 # 2) then k else k / 2;
     Adaptivity_stabilize := fun k _ _ => k |}.

Definition decay (end_time : real) : ODE :=
  {| ode_size := 1; ode_endtime := end_time; ode_u0 := [1] |}.

(** ** Concrete states and runs of the small collaborators *)

(** The decay problem up to [T = 10] with 5 samples, saving enabled. *)
Definition demo_start : @TimeStepper (toy false None) :=
  TimeStepper_create (decay 10) 5 true.

(** The same stepper with the controller's step set to [1]: the first slab
    is [[0, 1]], on which the iteration converges and the residual is
    refused. *)
Definition demo_unit : @TimeStepper (toy false None) :=
  set_adaptivity (C := toy false None) 1 demo_start.


(** The same stepper moved to [t = 1], with the initial step [4]. *)
Definition demo_late : @TimeStepper (toy false None) := set_t 1 demo_start.

(** A stepper whose engine reports [alpha = -1] and [m = 3]. *)
Definition demo_negative : @TimeStepper (toy false (Some (-1, 3%Z))) :=
  TimeStepper_create (decay 10) 5 true.

(** The whole run from [demo_start], and its first [step]. *)
Definition demo_run : list TimeSlab.t * @TimeStepper (toy false None) :=
  match run_exec 100 100 [] demo_start with
  | Some r => r
  | None => ([], demo_start)
  end.

Definition demo_step : real * @TimeStepper (toy false None) :=
  match step 10 demo_start with
  | Some r => r
  | None => (0, demo_start)
  end.

(** ** Further notions: call counts and contracts of the collaborators *)

(** The arguments of the calls [u.shift(t)] in a call log. *)
Definition shift_calls (cs : list Call) : list real :=
  flat_map (fun c => match c with
                     | Call_Solution_shift t0 => [t0]
                     | _ => []
                     end) cs.

Definition is_iterate (c : Call) : bool :=
  match c with Call_iterate _ => true | _ => false end.

Definition is_reset (c : Call) : bool :=
  match c with Call_reset => true | _ => false end.

(** [u.shift(t)], the commit of the solution. *)
Definition is_commit (c : Call) : bool :=
  match c with Call_Solution_shift _ => true | _ => false end.

(** The queries of the residual check: [adaptivity.fixed()] and
    [adaptivity.accept(timeslab, f)]. *)
Definition is_residual_query (c : Call) : bool :=
  match c with Call_fixed | Call_accept _ => true | _ => false end.

Definition count_calls (f : Call -> bool) (cs : list Call) : nat :=
  List.length (filter f cs).

Section Contracts.

Context {C : Collaborators}.

(** Both slab constructors, asked for a slab from [t0] towards a later
    [t1], return a slab that ends after [t0] and not after [t1]. *)
Definition slabs_advance : Prop :=
  (forall t0 t1 u0 a,
      t0 < t1 ->
      t0 < slab_end_simple t0 t1 u0 a /\ slab_end_simple t0 t1 u0 a <= t1) /\
  (forall t0 t1 u0 a fx,
      t0 < t1 ->
      t0 < slab_end_recursive t0 t1 u0 a fx /\
      slab_end_recursive t0 t1 u0 a fx <= t1).

(** Both slab constructors cover at least [delta] of the remaining interval
    or all of it, and never more. *)
Definition slabs_cover (delta : real) : Prop :=
  (forall t0 t1 u0 a,
      t0 < t1 ->
      (t0 + delta <= slab_end_simple t0 t1 u0 a \/
       slab_end_simple t0 t1 u0 a == t1) /\
      slab_end_simple t0 t1 u0 a <= t1) /\
  (forall t0 t1 u0 a fx,
      t0 < t1 ->
      (t0 + delta <= slab_end_recursive t0 t1 u0 a fx \/
       slab_end_recursive t0 t1 u0 a fx == t1) /\
      slab_end_recursive t0 t1 u0 a fx <= t1).

(** [s1] differs from [s] at most in the collaborators' state and the
    call log. *)
Definition same_outside_collaborators (s s1 : TimeStepper) : Prop :=
  t s1 = t s /\ T s1 = T s /\ p s1 = p s /\ _finished s1 = _finished s /\
  file s1 = file s /\ no_samples s1 = no_samples s /\
  save_solution s1 = save_solution s /\ N s1 = N s.

(** The iteration converges on every slab. *)
Definition always_converges : Prop :=
  forall slab u0 a fx, fst (FixedPointIteration_iterate slab u0 a fx) = true.

(** The iteration converges on no slab. *)
Definition never_converges : Prop :=
  forall slab u0 a fx, fst (FixedPointIteration_iterate slab u0 a fx) = false.

(** The residual check of the first slab lets every slab through: the
    controller is in fixed-step mode or accepts the slab. *)
Definition never_refuses : Prop :=
  forall slab u0 a,
    Adaptivity_fixed a = true \/ Adaptivity_accept slab u0 a = true.

End Contracts.

(** ** Two more concrete sets of collaborators *)

(** A fixed-step controller with step [k] whose iteration always
    converges. *)
Definition steady (k : real) : Collaborators :=
  {| Adaptivity := unit;
     FixedPointIteration := nat;
     Adaptivity_create := fun _ => tt;
     FixedPointIteration_create := fun _ => O;
     slab_end_simple := fun t0 t1 _ _ => toy_slab_end t0 t1 k;
     slab_end_recursive := fun t0 t1 _ _ _ => toy_slab_end t0 t1 k;
     FixedPointIteration_iterate := fun slab u0 a n =>
       (true,
        (map (fun y => y * (1 - TimeSlab.length slab)) (Solution.values u0),
         a, S n));
     FixedPointIteration_stabilization := fun _ alpha m => (alpha, m);
     Adaptivity_fixed := fun _ => true;
     Adaptivity_accept := fun _ _ _ => true;
     Adaptivity_shift := fun _ a => a;
     Adaptivity_stabilize := fun _ _ a => a |}.

(** The small collaborators of above with an iteration that never
    converges. *)
Definition stubborn : Collaborators :=
  {| Adaptivity := real;
     FixedPointIteration := nat;
     Adaptivity_create := fun _ => 4;
     FixedPointIteration_create := fun _ => O;
     slab_end_simple := fun t0 t1 _ k => toy_slab_end t0 t1 k;
     slab_end_recursive := fun t0 t1 _ k _ => toy_slab_end t0 t1 k;
     FixedPointIteration_iterate := fun _ u0 k n =>
       (false, (Solution.values u0, k, S n));
     FixedPointIteration_stabilization := fun _ alpha m => (alpha, m);
     Adaptivity_fixed := fun _ => false;
     Adaptivity_accept := fun _ _ _ => true;
     Adaptivity_shift := fun _ k => k;
     Adaptivity_stabilize := fun k _ _ => k |}.

(** The result of [solve] on the decay problem of [demo_start]. *)
Definition demo_solved : @TimeStepper (toy false None) :=
  match solve 100 (decay 10) 5 true with
  | Some s => s
  | None => demo_start
  end.

(** [demo_start] with saving switched off, and its run. *)
Definition demo_silent : @TimeStepper (toy false None) :=
  TimeStepper_create (decay 10) 5 false.

Definition demo_silent_run : list TimeSlab.t * @TimeStepper (toy false None) :=
  match run_exec 100 0 [] demo_silent with
  | Some r => r
  | None => ([], demo_silent)
  end.

(** The state of the run from [demo_start] after five attempts, and the
    outcome of the attempt that follows. *)
Definition demo_partial : list TimeSlab.t * @TimeStepper (toy false None) :=
  match run_exec 5 100 [] demo_start with
  | Some r => r
  | None => ([], demo_start)
  end.

Definition demo_next : bool * @TimeStepper (toy false None) :=
  match createTimeSlab 100 (snd demo_partial) with
  | Some r => r
  | None => (false, demo_start)
  end.

(** A stepper with the negative end time [-10], standing at [t = -20] with
    controller step [1/2]: the sample interval is [-2]. *)
Definition demo_backwards : @TimeStepper (toy false None) :=
  set_adaptivity (C := toy false None) (1 # 2)
    (set_t (-20) (TimeStepper_create (decay (-10)) 5 true)).

(** ** [save] in double precision *)

Module Double.

(** The C++ type [real] as it is on the machine: IEEE 754 binary64, with
    the primitive operations rounding to nearest, ties to even. *)
Definition real : Set := PrimFloat.float.

(** [static_cast<real>(n)] of an integer; exact for [|n| < 2^53], so for
    every [unsigned int]. *)
Definition of_Z (z : Z) : real :=
  match z with
  | Z0 => PrimFloat.zero
  | Zpos _ => PrimFloat.of_uint63 (Uint63.of_Z z)
  | Zneg q => PrimFloat.opp (PrimFloat.of_uint63 (Uint63.of_Z (Zpos q)))
  end.

(** [ceil] of [<cmath>]: a double with a non-negative exponent is an
    integer already; otherwise the significand [m] is divided by
    [2 ^ (- e)], rounding towards plus infinity.  Zeros, infinities and NaN
    are returned as they are. *)
Definition ceil (x : real) : real :=
  match FloatOps.Prim2SF x with
  | SpecFloat.S754_finite s m e =>
      if (0 <=? e)%Z then x
      else
        let d := (2 ^ (- e))%Z in
        let q := (Zpos m / d)%Z in
        if s then PrimFloat.opp (of_Z q)
        else if (Zpos m mod d =? 0)%Z then of_Z q
        else of_Z (q + 1)
  | _ => x
  end.


(** [real K = T / static_cast<real>(no_samples);], line 179. *)
Definition cadence (T : real) (no_samples : Z) : real :=
  PrimFloat.div T (of_Z no_samples).

(** [real t = ceil(timeslab.starttime()/K) * K;], line 180. *)
Definition first_sample (K starttime : real) : real :=
  PrimFloat.mul (ceil (PrimFloat.div starttime K)) K.

(** The [while] loop of [TimeStepper::save], lines 183-188, collecting the
    times of the samples it writes; [t += K] is one rounded addition. *)
Fixpoint save_loop (fuel : nat) (K t0 e : real) : option (list real) :=
  if PrimFloat.ltb t0 e then
    match fuel with
    | O => None
    | S fuel' =>
        match save_loop fuel' K (PrimFloat.add t0 K) e with
        | Some l => Some (t0 :: l)
        | None => None
        end
    end
  else Some [].

(** [TimeStepper::save], lines 172-195, as a function of the members and
    of the slab's [starttime()], [endtime()] and [finished()] it reads,
    returning the times of the samples it writes. *)
Definition save (fuel : nat) (save_solution : bool) (T : real)
    (no_samples : Z) (starttime endtime : real) (finished : bool)
  : option (list real) :=
  if negb save_solution then Some []
  else
    let K := cadence T no_samples in
    let t0 := first_sample K starttime in
    match save_loop fuel K t0 endtime with
    | Some l => Some (l ++ if finished then [endtime] else [])
    | None => None
    end.












End Double.

(** * Properties *)

(** ** Integer ranges *)

Lemma zrange_nil (a b : Z) : (b <= a)%Z -> zrange a b = [].
Proof.
  intros H. unfold zrange. replace (Z.to_nat (b - a)) with O by lia. reflexivity.
Qed.

Lemma zrange_cons (a b : Z) : (a < b)%Z -> zrange a b = a :: zrange (a + 1) b.
Proof.
  intros H. unfold zrange.
  replace (Z.to_nat (b - a)) with (S (Z.to_nat (b - (a + 1)))) by lia.
  reflexivity.
Qed.

(** ** Multiples of the sample interval *)

Lemma lt_Qceiling (j : Z) (x : Q) : inject_Z j < x <-> (j < Qceiling x)%Z.
Proof.
  split; intros H.
  - rewrite Zlt_Qlt. apply Qlt_le_trans with x; [exact H|apply Qle_ceiling].
  - apply Qle_lt_trans with (inject_Z (Qceiling x - 1)); [|apply Qceiling_lt].
    rewrite <- Zle_Qle. lia.
Qed.

Lemma mult_lt_div (K x y : Q) : 0 < K -> (y * K < x <-> y < x / K).
Proof.
  intros HK. split; intros H.
  - now apply Qlt_shift_div_l.
  - apply Qmult_lt_r with (z := K) in H; [|exact HK].
    setoid_replace (x / K * K) with x in H; [exact H|field; lra].
Qed.

Lemma multiple_lt (K x : Q) (j : Z) :
  0 < K -> (inject_Z j * K < x <-> (j < Qceiling (x / K))%Z).
Proof. intros HK. rewrite mult_lt_div by exact HK. apply lt_Qceiling. Qed.

Lemma multiple_ge (K x : Q) (j : Z) :
  0 < K -> (x <= inject_Z j * K <-> (Qceiling (x / K) <= j)%Z).
Proof.
  intros HK. split; intros H.
  - destruct (Z_lt_le_dec j (Qceiling (x / K))) as [Hlt|Hle]; [|exact Hle].
    apply multiple_lt in Hlt; [lra|exact HK].
  - destruct (Qlt_le_dec (inject_Z j * K) x) as [Hlt|Hle]; [|exact Hle].
    apply multiple_lt in Hlt; [lia|exact HK].
Qed.

(** The loop of [save], started at the multiple [j * K] with [K > 0] and
    given enough fuel, writes the multiples from [j * K] up to [e]. *)
Lemma loop_times_multiples (K e : Q) :
  0 < K ->
  forall (fuel : nat) (j : Z) (t0 : Q),
    t0 == inject_Z j * K ->
    (Qceiling (e / K) - j <= Z.of_nat fuel)%Z ->
    exists l,
      loop_times fuel K t0 e = Some l /\
      Forall2 Qeq l
        (map (fun i => inject_Z i * K) (zrange j (Qceiling (e / K)))).
Proof.
  intros HK. induction fuel as [|fuel IH]; intros j t0 Ht0 Hfuel.
  - simpl. destruct (Qlt_le_dec t0 e) as [Hlt|Hle].
    + rewrite Ht0 in Hlt. apply multiple_lt in Hlt; [lia|exact HK].
    + exists []. split; [reflexivity|].
      rewrite zrange_nil by lia. constructor.
  - simpl. destruct (Qlt_le_dec t0 e) as [Hlt|Hle].
    + rewrite Ht0 in Hlt. apply multiple_lt in Hlt; [|exact HK].
      destruct (IH (j + 1)%Z (t0 + K)) as [l [Hl HF]].
      * rewrite Ht0, inject_Z_plus. ring.
      * lia.
      * exists (t0 :: l). rewrite Hl. split; [reflexivity|].
        rewrite zrange_cons by exact Hlt. simpl. constructor; assumption.
    + exists []. split; [reflexivity|].
      rewrite Ht0 in Hle. apply multiple_ge in Hle; [|exact HK].
      rewrite zrange_nil by lia. constructor.
Qed.

Lemma loop_times_mono (K e : Q) :
  forall (fuel fuel' : nat) (t0 : Q) (l : list Q),
    (fuel <= fuel')%nat ->
    loop_times fuel K t0 e = Some l -> loop_times fuel' K t0 e = Some l.
Proof.
  induction fuel as [|fuel IH]; intros fuel' t0 l Hle; simpl.
  - destruct (Qlt_le_dec t0 e) as [Hlt|Hge] eqn:Hd; [discriminate|].
    intros H. destruct fuel'; simpl; now rewrite Hd.
  - destruct fuel' as [|fuel']; [lia|]. simpl.
    destruct (Qlt_le_dec t0 e); [|easy].
    destruct (loop_times fuel K (t0 + K) e) as [l'|] eqn:Hl; [|discriminate].
    intros H. rewrite (IH fuel' _ l'); [exact H|lia|exact Hl].
Qed.

Section Properties.

Context {C : Collaborators}.

(** ** The methods in closed form *)

Lemma set_file_same (s : TimeStepper) : set_file (file s) s = s.
Proof. destruct s; reflexivity. Qed.

Lemma bind_Some {X Y : Type} (m : M X) (k : X -> M Y) (s s' : TimeStepper)
    (x : X) :
  m s = Some (x, s') -> bind m k s = k x s'.
Proof. intros H. unfold bind. now rewrite H. Qed.

Lemma fixpoint_iterate_eq (timeslab : TimeSlab.t) (s : TimeStepper) :
  fixpoint_iterate timeslab s = Some (converged timeslab s, iterated timeslab s).
Proof.
  unfold fixpoint_iterate, converged, iterated.
  destruct (FixedPointIteration_iterate timeslab (u s) (adaptivity s)
              (fixpoint s)) as [ok [[v a] fx]].
  reflexivity.
Qed.

Lemma save_loop_eq (fuel : nat) (K e : real) :
  forall (t0 : real) (s : TimeStepper),
    save_loop fuel K t0 e s =
    match loop_times fuel K t0 e with
    | Some l =>
        Some (tt, set_file (file s ++ map (mkSample (Solution.values (u s))) l) s)
    | None => None
    end.
Proof.
  induction fuel as [|fuel IH]; intros t0 s; simpl.
  - destruct (Qlt_le_dec t0 e); [reflexivity|].
    unfold ret; simpl. now rewrite app_nil_r, set_file_same.
  - destruct (Qlt_le_dec t0 e).
    + unfold bind, write_sample, modify. rewrite IH.
      destruct (loop_times fuel K (t0 + K) e) as [l|]; [|reflexivity].
      simpl. unfold set_file; simpl. now rewrite <- app_assoc.
    + unfold ret; simpl. now rewrite app_nil_r, set_file_same.
Qed.

Lemma save_eq (fuel : nat) (timeslab : TimeSlab.t) (s : TimeStepper) :
  save fuel timeslab s =
  match saved_times fuel timeslab s with
  | Some l =>
      Some (tt, set_file (file s ++ map (mkSample (Solution.values (u s))) l) s)
  | None => None
  end.
Proof.
  unfold save, saved_times, bind, gets, cadence.
  destruct (save_solution s); simpl.
  - rewrite save_loop_eq.
    destruct (loop_times fuel _ _ _) as [l|]; [|reflexivity].
    destruct (TimeSlab.finished timeslab).
    + unfold write_sample, modify, set_file; simpl.
      now rewrite map_app, app_assoc.
    + unfold ret. now rewrite app_nil_r.
  - unfold ret; simpl. now rewrite app_nil_r, set_file_same.
Qed.

Lemma saved_times_frame (fuel : nat) (timeslab : TimeSlab.t)
    (s s' : TimeStepper) :
  save_solution s' = save_solution s -> T s' = T s ->
  no_samples s' = no_samples s ->
  saved_times fuel timeslab s' = saved_times fuel timeslab s.
Proof.
  intros H1 H2 H3. unfold saved_times, cadence. now rewrite H1, H2, H3.
Qed.

Lemma commit_eq (fuel : nat) (timeslab : TimeSlab.t) (s : TimeStepper) :
  commit fuel timeslab s =
  match saved_times fuel timeslab s with
  | Some l => Some (true, accepted_state timeslab l s)
  | None => None
  end.
Proof.
  unfold commit, bind, modify. rewrite save_eq.
  rewrite (saved_times_frame fuel timeslab s) by reflexivity.
  destruct (saved_times fuel timeslab s) as [l|]; [|reflexivity].
  unfold accepted_state, shift, bind, adaptivity_shift, u_shift, gets, modify.
  destruct (TimeSlab.finished timeslab); unfold ret; simpl;
    unfold log, set_p, set_u, set_finished; simpl;
    now rewrite <- app_assoc.
Qed.

Lemma stabilize_reset_eq (K : real) (s : TimeStepper) :
  bind (stabilize K) (fun _ => bind u_reset (fun _ => ret false)) s =
  Some (false, stabilized_state K s).
Proof.
  unfold stabilize, stabilized_state, reported, bind, fixpoint_stabilization,
    adaptivity_stabilize, u_reset, modify, ret, log, set_u, set_adaptivity.
  simpl. now rewrite <- !app_assoc.
Qed.

Lemma shift_reset_eq (s : TimeStepper) :
  bind adaptivity_shift (fun _ => bind u_reset (fun _ => ret false)) s =
  Some (false, refused_state s).
Proof.
  unfold refused_state, bind, adaptivity_shift, u_reset, modify, ret, log,
    set_u, set_adaptivity.
  simpl. now rewrite <- !app_assoc.
Qed.

(** [createFirstTimeSlab] as a case analysis on what the collaborators
    answer. *)
Lemma createFirstTimeSlab_eq (fuel : nat) (s : TimeStepper) :
  createFirstTimeSlab fuel s =
  let slab := SimpleTimeSlab s in
  let s1 := iterated slab (log (New_SimpleTimeSlab slab) s) in
  let s2 := log Call_fixed s1 in
  let s3 := log (Call_accept slab) s2 in
  if negb (converged slab s) then
    Some (false, stabilized_state (TimeSlab.length slab) s1)
  else if negb (Adaptivity_fixed (adaptivity s1)) then
    if negb (Adaptivity_accept slab (u s1) (adaptivity s1)) then
      Some (false, refused_state s3)
    else
      match saved_times fuel slab s with
      | Some l => Some (true, accepted_state slab l s3)
      | None => None
      end
  else
    match saved_times fuel slab s with
    | Some l => Some (true, accepted_state slab l s2)
    | None => None
    end.
Proof.
  unfold createFirstTimeSlab.
  erewrite bind_Some by reflexivity.
  erewrite bind_Some by apply fixpoint_iterate_eq.
  change (converged (SimpleTimeSlab s) (log (New_SimpleTimeSlab (SimpleTimeSlab s)) s))
    with (converged (SimpleTimeSlab s) s).
  cbv zeta.
  set (slab := SimpleTimeSlab s).
  set (s1 := iterated slab (log (New_SimpleTimeSlab slab) s)).
  destruct (converged slab s); cbn [negb].
  - erewrite bind_Some by reflexivity.
    change (adaptivity (log Call_fixed s1)) with (adaptivity s1).
    destruct (Adaptivity_fixed (adaptivity s1)); cbn [negb].
    + rewrite commit_eq. reflexivity.
    + erewrite bind_Some by reflexivity.
      change (u (log Call_fixed s1)) with (u s1).
      change (adaptivity (log Call_fixed s1)) with (adaptivity s1).
      destruct (Adaptivity_accept slab (u s1) (adaptivity s1)); cbn [negb].
      * rewrite commit_eq. reflexivity.
      * apply shift_reset_eq.
  - apply stabilize_reset_eq.
Qed.

(** [createGeneralTimeSlab] as a case analysis on what the iteration
    answers. *)
Lemma createGeneralTimeSlab_eq (fuel : nat) (s : TimeStepper) :
  createGeneralTimeSlab fuel s =
  let slab := RecursiveTimeSlab s in
  let s1 := iterated slab (log (New_RecursiveTimeSlab slab) s) in
  if negb (converged slab s) then
    Some (false, stabilized_state (TimeSlab.length slab) s1)
  else
    match saved_times fuel slab s with
    | Some l => Some (true, accepted_state slab l s1)
    | None => None
    end.
Proof.
  unfold createGeneralTimeSlab.
  erewrite bind_Some by reflexivity.
  erewrite bind_Some by apply fixpoint_iterate_eq.
  change (converged (RecursiveTimeSlab s)
            (log (New_RecursiveTimeSlab (RecursiveTimeSlab s)) s))
    with (converged (RecursiveTimeSlab s) s).
  cbv zeta.
  destruct (converged (RecursiveTimeSlab s) s); cbn [negb].
  - rewrite commit_eq. reflexivity.
  - apply stabilize_reset_eq.
Qed.

Lemma createTimeSlab_eq (fuel : nat) (s : TimeStepper) :
  createTimeSlab fuel s =
  if Qeq_bool (t s) 0 then createFirstTimeSlab fuel s
  else createGeneralTimeSlab fuel s.
Proof.
  unfold createTimeSlab, bind, gets. now destruct (Qeq_bool (t s) 0).
Qed.


(** ** What one attempt does to the members *)

Lemma next_slab_starttime (s : TimeStepper) :
  TimeSlab.starttime (next_slab s) = t s.
Proof. unfold next_slab. now destruct (Qeq_bool (t s) 0). Qed.

Lemma next_slab_reach (s : TimeStepper) : TimeSlab.reach (next_slab s) = T s.
Proof. unfold next_slab. now destruct (Qeq_bool (t s) 0). Qed.

Lemma attempt_rejected (fuel : nat) (s s' : TimeStepper) :
  createTimeSlab fuel s = Some (false, s') ->
  t s' = t s /\ T s' = T s /\ p s' = p s /\ _finished s' = _finished s /\
  file s' = file s /\ no_samples s' = no_samples s /\
  save_solution s' = save_solution s /\ N s' = N s /\
  u s' = Solution.reset (u (tried s)).
Proof.
  rewrite createTimeSlab_eq. unfold tried.
  destruct (Qeq_bool (t s) 0).
  - rewrite createFirstTimeSlab_eq. cbv zeta.
    destruct (converged (SimpleTimeSlab s) s); cbn [negb].
    + destruct (Adaptivity_fixed _); cbn [negb].
      * destruct (saved_times fuel _ s); discriminate.
      * destruct (Adaptivity_accept _ _ _); cbn [negb].
        -- destruct (saved_times fuel _ s); discriminate.
        -- intros H. injection H as <-. now repeat split.
    + intros H. injection H as <-. now repeat split.
  - rewrite createGeneralTimeSlab_eq. cbv zeta.
    destruct (converged (RecursiveTimeSlab s) s); cbn [negb].
    + destruct (saved_times fuel _ s); discriminate.
    + intros H. injection H as <-. now repeat split.
Qed.

Lemma attempt_accepted (fuel : nat) (s s' : TimeStepper) :
  createTimeSlab fuel s = Some (true, s') ->
  let slab := next_slab s in
  converged slab s = true /\
  t s' = TimeSlab.endtime slab /\ T s' = T s /\
  p s' = (if TimeSlab.finished slab then 1 else TimeSlab.endtime slab / T s) /\
  _finished s' = (if TimeSlab.finished slab then true else _finished s) /\
  (exists l, saved_times fuel slab s = Some l /\
             file s' =
             file s ++ map (mkSample (Solution.values (u (tried s)))) l) /\
  no_samples s' = no_samples s /\ save_solution s' = save_solution s /\
  N s' = N s /\
  u s' = Solution.shift (TimeSlab.endtime slab) (u (tried s)).
Proof.
  rewrite createTimeSlab_eq. unfold tried, next_slab.
  destruct (Qeq_bool (t s) 0); cbv zeta.
  - rewrite createFirstTimeSlab_eq. cbv zeta.
    destruct (converged (SimpleTimeSlab s) s); cbn [negb]; [|discriminate].
    destruct (Adaptivity_fixed _); cbn [negb].
    + destruct (saved_times fuel _ s) as [l|]; [|discriminate].
      intros H. injection H as <-. repeat split. exists l. now split.
    + destruct (Adaptivity_accept _ _ _); cbn [negb]; [|discriminate].
      destruct (saved_times fuel _ s) as [l|]; [|discriminate].
      intros H. injection H as <-. repeat split. exists l. now split.
  - rewrite createGeneralTimeSlab_eq. cbv zeta.
    destruct (converged (RecursiveTimeSlab s) s); cbn [negb]; [|discriminate].
    destruct (saved_times fuel _ s) as [l|]; [|discriminate].
    intros H. injection H as <-. repeat split. exists l. now split.
Qed.


(** ** Runs *)

Lemma consecutive_snoc (l : list TimeSlab.t) :
  forall (t0 : real) (slab : TimeSlab.t),
    consecutive t0 l -> TimeSlab.starttime slab = last_end t0 l ->
    consecutive t0 (l ++ [slab]).
Proof.
  induction l as [|x l IH]; intros t0 slab Hc Hs; simpl in *.
  - now split.
  - destruct Hc as [Hx Hc]. split; [exact Hx|]. now apply IH.
Qed.

Lemma last_end_snoc (l : list TimeSlab.t) (t0 : real) (slab : TimeSlab.t) :
  last_end t0 (l ++ [slab]) = TimeSlab.endtime slab.
Proof. unfold last_end. now rewrite fold_left_app. Qed.

Lemma run_exec_sound (s0 : TimeStepper) (n fuel : nat) :
  forall l s l' s',
    run s0 l s -> run_exec n fuel l s = Some (l', s') -> run s0 l' s'.
Proof.
  induction n as [|n IH]; intros l s l' s' Hrun; simpl.
  - intros H. now injection H as <- <-.
  - destruct (_finished s) eqn:Hfin.
    + intros H. now injection H as <- <-.
    + destruct (createTimeSlab fuel s) as [[[|] s1]|] eqn:Hc; [| |discriminate].
      * apply IH. eapply run_accepted; eassumption.
      * apply IH. eapply run_rejected; eassumption.
Qed.

Lemma run_frame (s0 : TimeStepper) (l : list TimeSlab.t) (s : TimeStepper) :
  run s0 l s ->
  T s = T s0 /\ no_samples s = no_samples s0 /\
  save_solution s = save_solution s0 /\ N s = N s0.
Proof.
  induction 1 as [|l s s' fuel _ IH _ Hc|l s s' fuel _ IH _ Hc].
  - now repeat split.
  - apply attempt_rejected in Hc.
    destruct Hc as (_ & HT & _ & _ & _ & Hn & Hsv & HN & _).
    destruct IH as (IT & In' & Isv & IN). repeat split; congruence.
  - apply attempt_accepted in Hc.
    destruct Hc as (_ & _ & HT & _ & _ & _ & Hn & Hsv & HN & _).
    destruct IH as (IT & In' & Isv & IN). repeat split; congruence.
Qed.

(** The accepted slabs of a run form a chain that starts at the initial
    time, and the current time is the end of the last of them. *)
Lemma run_chain (s0 : TimeStepper) (l : list TimeSlab.t) (s : TimeStepper) :
  run s0 l s -> consecutive (t s0) l /\ t s = last_end (t s0) l.
Proof.
  induction 1 as [|l s s' fuel _ IH _ Hc|l s s' fuel _ IH _ Hc].
  - now split.
  - apply attempt_rejected in Hc. destruct Hc as (Ht & _).
    destruct IH as [IH1 IH2]. split; [exact IH1|congruence].
  - apply attempt_accepted in Hc. destruct Hc as (_ & Ht & _).
    destruct IH as [IH1 IH2]. split.
    + apply consecutive_snoc; [exact IH1|].
      rewrite next_slab_starttime. exact IH2.
    + rewrite last_end_snoc. exact Ht.
Qed.

Lemma run_bounds (s0 : TimeStepper) (l : list TimeSlab.t) (s : TimeStepper) :
  run s0 l s ->
  0 <= t s0 -> t s0 <= T s0 ->
  Forall TimeSlab.invariant l ->
  0 <= t s /\ t s <= T s /\ t s0 <= t s.
Proof.
  intros Hrun H0 HT.
  induction Hrun as [|l s s' fuel Hrun IH _ Hc|l s s' fuel Hrun IH _ Hc];
    intros Hinv.
  - repeat split; [exact H0|exact HT|apply Qle_refl].
  - apply attempt_rejected in Hc. destruct Hc as (Ht & HTs & _).
    rewrite Ht, HTs. now apply IH.
  - apply Forall_app in Hinv. destruct Hinv as [Hl Hslab].
    apply Forall_inv in Hslab. destruct Hslab as [Hlt Hle].
    rewrite next_slab_starttime in Hlt. rewrite next_slab_reach in Hle.
    apply attempt_accepted in Hc. destruct Hc as (_ & Ht & HTs & _).
    rewrite Ht, HTs. destruct (IH Hl) as (I0 & I1 & I2).
    repeat split; [lra|exact Hle|lra].
Qed.

(** The uniform path is taken exactly while no slab has been accepted. *)
Lemma run_first_path (s0 : TimeStepper) (l : list TimeSlab.t)
    (s : TimeStepper) :
  run s0 l s ->
  t s0 == 0 ->
  Forall (fun slab => TimeSlab.starttime slab < TimeSlab.endtime slab) l ->
  0 <= t s /\ (t s == 0 <-> l = []).
Proof.
  intros Hrun H0.
  induction Hrun as [|l s s' fuel Hrun IH _ Hc|l s s' fuel Hrun IH _ Hc];
    intros Hinv.
  - split; [lra|]. split; [reflexivity|intros _; exact H0].
  - apply attempt_rejected in Hc. destruct Hc as (Ht & _).
    rewrite Ht. now apply IH.
  - apply Forall_app in Hinv. destruct Hinv as [Hl Hslab].
    apply Forall_inv in Hslab. rewrite next_slab_starttime in Hslab.
    apply attempt_accepted in Hc. destruct Hc as (_ & Ht & _).
    rewrite Ht. destruct (IH Hl) as (I0 & _).
    split; [lra|]. split.
    + intros He. lra.
    + intros He. now apply app_eq_nil in He as [_ He].
Qed.

(** The end times along a chain of slabs that each end after they start
    increase strictly. *)
Lemma chain_sorted (l : list TimeSlab.t) :
  forall t0 : real,
    consecutive t0 l ->
    Forall (fun slab => TimeSlab.starttime slab < TimeSlab.endtime slab) l ->
    StronglySorted Qlt (t0 :: map TimeSlab.endtime l).
Proof.
  induction l as [|x l IH]; intros t0 Hc Hadv; simpl.
  - repeat constructor.
  - destruct Hc as [Hx Hc]. inversion Hadv as [|y l' Hlt Hl]; subst.
    specialize (IH _ Hc Hl). constructor; [exact IH|].
    constructor; [exact Hlt|].
    apply StronglySorted_inv in IH. destruct IH as [_ IH].
    eapply Forall_impl; [|exact IH].
    intros e He. simpl in He. eapply Qlt_trans; eassumption.
Qed.

(** C1: the current time starts at [0]; along a run whose accepted slabs
    satisfy the slab invariant [start < end <= T] it stays within
    [0 <= t <= T], it is the end time of the last accepted slab, and the
    end times of the accepted slabs increase strictly; a rejected attempt leaves [t], the finished flag and the
    progress as they are; an accepted attempt sets [t] to the slab's end
    time, which is a strict increase when the slab's end is after its start,
    and sets the finished flag exactly when that end time equals [T], in
    which case the progress becomes [1]. *)
Theorem C1_time_invariant :
  (forall ode n sv, t (TimeStepper_create ode n sv) = 0) /\
  (forall ode n sv l s,
      0 <= ode_endtime ode ->
      run (TimeStepper_create ode n sv) l s ->
      Forall TimeSlab.invariant l ->
      0 <= t s /\ t s <= T s /\
      t s = last_end 0 l /\
      StronglySorted Qlt (0 :: map TimeSlab.endtime l)) /\
  (forall fuel s s',
      createTimeSlab fuel s = Some (false, s') ->
      t s' = t s /\ _finished s' = _finished s /\ p s' = p s) /\
  (forall fuel s s',
      createTimeSlab fuel s = Some (true, s') ->
      let slab := next_slab s in
      TimeSlab.starttime slab = t s /\
      t s' = TimeSlab.endtime slab /\
      (TimeSlab.starttime slab < TimeSlab.endtime slab -> t s < t s') /\
      (_finished s' = true <->
       _finished s = true \/ TimeSlab.endtime slab == T s) /\
      (TimeSlab.endtime slab == T s -> p s' = 1)).
Proof.
  split; [reflexivity|]. split; [|split].
  - intros ode n sv l s HT Hrun Hinv.
    destruct (run_bounds _ l s Hrun) as (H0 & H1 & _);
      [apply Qle_refl|exact HT|exact Hinv|].
    destruct (run_chain _ l s Hrun) as [Hchain Hlast].
    repeat split; [exact H0|exact H1|exact Hlast|].
    apply chain_sorted; [exact Hchain|].
    eapply Forall_impl; [|exact Hinv]. intros slab [H _]. exact H.
  - intros fuel s s' Hc. apply attempt_rejected in Hc.
    destruct Hc as (Ht & _ & Hp & Hf & _). now repeat split.
  - intros fuel s s' Hc. cbv zeta. apply attempt_accepted in Hc.
    destruct Hc as (_ & Ht & _ & Hp & Hf & _).
    rewrite next_slab_starttime. split; [reflexivity|]. split; [exact Ht|].
    split; [intros Hlt; rewrite Ht; exact Hlt|].
    unfold TimeSlab.finished in Hp, Hf. rewrite next_slab_reach in Hp, Hf.
    rewrite Hf, Hp.
    destruct (Qeq_bool (TimeSlab.endtime (next_slab s)) (T s)) eqn:He.
    + apply Qeq_bool_eq in He. split; [tauto|]. intros _; reflexivity.
    + apply Qeq_bool_neq in He. split; [|tauto].
      split; [tauto|]. intros [H|H]; [exact H|contradiction].
Qed.


(** ** Which path an attempt takes *)

(** Closes a goal [Some (b0, s0) = Some (b, s') -> exists rest, calls s' =
    calls s ++ c :: rest /\ Forall _ rest] by reading [rest] off the log. *)
Ltac logged_outcome :=
  let H := fresh "H" in
  intros H; injection H as <- <-; eexists; split;
  [ simpl; rewrite <- !app_assoc; reflexivity | repeat constructor ].

(** C7: an attempt with [t == 0] is [createFirstTimeSlab], which builds the
    uniform slab, and an attempt with [t != 0] is [createGeneralTimeSlab],
    which builds the recursive slab; in a run whose accepted slabs end after
    they start, [t == 0] holds exactly while no slab has been accepted. *)
Theorem C7_slab_path :
  (forall fuel s,
      createTimeSlab fuel s =
      if Qeq_bool (t s) 0 then createFirstTimeSlab fuel s
      else createGeneralTimeSlab fuel s) /\
  (forall fuel s b s',
      createTimeSlab fuel s = Some (b, s') ->
      exists rest,
        calls s' =
        calls s ++
        (if Qeq_bool (t s) 0 then New_SimpleTimeSlab (SimpleTimeSlab s)
         else New_RecursiveTimeSlab (RecursiveTimeSlab s)) :: rest /\
        Forall (fun c => match c with
                         | New_SimpleTimeSlab _ | New_RecursiveTimeSlab _ => False
                         | _ => True
                         end) rest) /\
  (forall ode n sv l s,
      run (TimeStepper_create ode n sv) l s ->
      Forall (fun slab => TimeSlab.starttime slab < TimeSlab.endtime slab) l ->
      (Qeq_bool (t s) 0 = true <-> l = [])).
Proof.
  split; [exact createTimeSlab_eq|]. split.
  - intros fuel s b s'. rewrite createTimeSlab_eq.
    destruct (Qeq_bool (t s) 0).
    + rewrite createFirstTimeSlab_eq. cbv zeta.
      destruct (converged (SimpleTimeSlab s) s); cbn [negb];
        [|logged_outcome].
      destruct (Adaptivity_fixed _); cbn [negb].
      * destruct (saved_times fuel _ s); [logged_outcome|discriminate].
      * destruct (Adaptivity_accept _ _ _); cbn [negb]; [|logged_outcome].
        destruct (saved_times fuel _ s); [logged_outcome|discriminate].
    + rewrite createGeneralTimeSlab_eq. cbv zeta.
      destruct (converged (RecursiveTimeSlab s) s); cbn [negb];
        [|logged_outcome].
      destruct (saved_times fuel _ s); [logged_outcome|discriminate].
  - intros ode n sv l s Hrun Hinv.
    destruct (run_first_path _ l s Hrun) as [_ H]; [reflexivity|exact Hinv|].
    rewrite Qeq_bool_iff. exact H.
Qed.

(** ** Failed iterations *)

Lemma reset_update_clean (v : list real) (u0 : Solution.t) :
  Solution.clean u0 -> Solution.reset (Solution.update v u0) = u0.
Proof.
  destruct u0 as [vals com bt]. unfold Solution.clean. simpl.
  intros ->. reflexivity.
Qed.

Lemma stabilized_after_iterate (built : Call) (slab : TimeSlab.t)
    (s : TimeStepper) :
  rejected_on_divergence built slab s
    (stabilized_state (TimeSlab.length slab) (iterated slab (log built s))).
Proof.
  unfold rejected_on_divergence. cbv zeta. simpl.
  repeat split.
  - now rewrite <- !app_assoc.
  - intros Hclean. now apply reset_update_clean.
Qed.

Lemma tried_u (s : TimeStepper) :
  exists v, u (tried s) = Solution.update v (u s).
Proof.
  unfold tried. destruct (Qeq_bool (t s) 0); eexists; reflexivity.
Qed.

Lemma attempt_clean (fuel : nat) (s : TimeStepper) (b : bool)
    (s' : TimeStepper) :
  createTimeSlab fuel s = Some (b, s') -> Solution.clean (u s').
Proof.
  destruct b; intros Hc.
  - apply attempt_accepted in Hc.
    destruct Hc as (_ & _ & _ & _ & _ & _ & _ & _ & _ & Hu).
    rewrite Hu. reflexivity.
  - apply attempt_rejected in Hc.
    destruct Hc as (_ & _ & _ & _ & _ & _ & _ & _ & Hu).
    rewrite Hu. reflexivity.
Qed.

Lemma run_clean (s0 : TimeStepper) (l : list TimeSlab.t) (s : TimeStepper) :
  run s0 l s -> Solution.clean (u s0) -> Solution.clean (u s).
Proof.
  induction 1 as [|l s s' fuel _ _ _ Hc|l s s' fuel _ _ _ Hc]; intros H0.
  - exact H0.
  - eapply attempt_clean; exact Hc.
  - eapply attempt_clean; exact Hc.
Qed.

(** C3: in both paths, when the iteration fails the stepper queries the
    engine, calls the controller's [stabilize] with a step computed from the
    rejected slab's length, then calls [u.reset()] and returns [false]; the
    solution is back at its committed values, which is the value it had
    before the attempt since every attempt starts from a solution with no
    pending update; [t], the progress, the finished flag and the sample file
    are unchanged.  Along a run from the constructor every rejected attempt
    leaves the solution exactly as it was before the attempt. *)
Theorem C3_iteration_failure :
  (forall fuel s,
      converged (SimpleTimeSlab s) s = false ->
      exists s',
        createFirstTimeSlab fuel s = Some (false, s') /\
        rejected_on_divergence (New_SimpleTimeSlab (SimpleTimeSlab s))
          (SimpleTimeSlab s) s s') /\
  (forall fuel s,
      converged (RecursiveTimeSlab s) s = false ->
      exists s',
        createGeneralTimeSlab fuel s = Some (false, s') /\
        rejected_on_divergence (New_RecursiveTimeSlab (RecursiveTimeSlab s))
          (RecursiveTimeSlab s) s s') /\
  (forall ode n sv, Solution.clean (u (TimeStepper_create ode n sv))) /\
  (forall fuel s b s',
      createTimeSlab fuel s = Some (b, s') -> Solution.clean (u s')) /\
  (forall ode n sv l s fuel s',
      run (TimeStepper_create ode n sv) l s ->
      createTimeSlab fuel s = Some (false, s') ->
      u s' = u s).
Proof.
  split; [|split; [|split; [|split]]].
  - intros fuel s Hc. eexists. split.
    + rewrite createFirstTimeSlab_eq. cbv zeta. rewrite Hc. reflexivity.
    + apply stabilized_after_iterate.
  - intros fuel s Hc. eexists. split.
    + rewrite createGeneralTimeSlab_eq. cbv zeta. rewrite Hc. reflexivity.
    + apply stabilized_after_iterate.
  - reflexivity.
  - intros fuel s b s'. apply attempt_clean.
  - intros ode n sv l s fuel s' Hrun Hc.
    apply run_clean in Hrun; [|reflexivity].
    apply attempt_rejected in Hc.
    destruct Hc as (_ & _ & _ & _ & _ & _ & _ & _ & Hu).
    destruct (tried_u s) as [v Hv].
    rewrite Hu, Hv. now apply reset_update_clean.
Qed.

(** ** The stabilized step *)

Lemma std_min_half (alpha : real) : std_min alpha (1 # 2) <= 1 # 2.
Proof. unfold std_min. destruct (Qlt_le_dec (1 # 2) alpha); lra. Qed.

Lemma std_min_le (alpha : real) : std_min alpha (1 # 2) <= alpha.
Proof. unfold std_min. destruct (Qlt_le_dec (1 # 2) alpha); lra. Qed.

Lemma stabilize_calls_app (l1 l2 : list Call) :
  stabilize_calls (l1 ++ l2) = stabilize_calls l1 ++ stabilize_calls l2.
Proof. unfold stabilize_calls. apply flat_map_app. Qed.

Lemma attempt_diverged (fuel : nat) (s : TimeStepper) :
  converged (next_slab s) s = false ->
  createTimeSlab fuel s =
  Some (false, stabilized_state (TimeSlab.length (next_slab s)) (tried s)).
Proof.
  rewrite createTimeSlab_eq. unfold next_slab, tried.
  destruct (Qeq_bool (t s) 0); intros Hc.
  - rewrite createFirstTimeSlab_eq. cbv zeta. now rewrite Hc.
  - rewrite createGeneralTimeSlab_eq. cbv zeta. now rewrite Hc.
Qed.

Lemma tried_calls (s : TimeStepper) :
  stabilize_calls (calls (tried s)) = stabilize_calls (calls s).
Proof.
  unfold tried. destruct (Qeq_bool (t s) 0); simpl;
    rewrite !stabilize_calls_app; simpl; now rewrite !app_nil_r.
Qed.

(** C5: on an iteration failure the one call [adaptivity.stabilize(k, m)]
    the attempt makes has [k = min(alpha, 0.5) * K], with [K] the length of
    the rejected slab and [alpha], [m] what the engine reported; for a slab
    of non-negative length this [k] is at most half of [K], whatever
    [alpha] is. *)
Theorem C5_stabilized_step (fuel : nat) (s : TimeStepper) :
  converged (next_slab s) s = false ->
  exists s',
    createTimeSlab fuel s = Some (false, s') /\
    let K := TimeSlab.length (next_slab s) in
    let alpha := fst (reported (tried s)) in
    let m := snd (reported (tried s)) in
    let k := std_min alpha (1 # 2) * K in
    stabilize_calls (calls s') = stabilize_calls (calls s) ++ [(k, m)] /\
    adaptivity s' = Adaptivity_stabilize k m (adaptivity (tried s)) /\
    (0 <= K -> k <= (1 # 2) * K).
Proof.
  intros Hc. eexists. split; [now apply attempt_diverged|].
  cbv zeta. split; [|split].
  - simpl. rewrite stabilize_calls_app, tried_calls. reflexivity.
  - reflexivity.
  - intros HK. apply Qmult_le_compat_r; [apply std_min_half|exact HK].
Qed.

(** C10: [stabilize] hands the engine [alpha = 1.0] and [m = 0]; when the
    engine leaves both as they are, the controller is called with exactly
    [k = 0.5 * K] and [m = 0]; and when the engine reports [alpha <= 0] for
    a slab of positive length, the controller is called with [k <= 0]:
    nothing in [stabilize] keeps [k] positive. *)
Theorem C10_stabilize_defaults (K : real) (s : TimeStepper) :
  let alpha := fst (FixedPointIteration_stabilization (fixpoint s) 1 0%Z) in
  let m := snd (FixedPointIteration_stabilization (fixpoint s) 1 0%Z) in
  let k := std_min alpha (1 # 2) * K in
  exists s',
    stabilize K s = Some (tt, s') /\
    calls s' = calls s ++ [Call_stabilization; Call_Adaptivity_stabilize k m] /\
    adaptivity s' = Adaptivity_stabilize k m (adaptivity s) /\
    (FixedPointIteration_stabilization (fixpoint s) 1 0%Z = (1, 0%Z) ->
     k = (1 # 2) * K /\ m = 0%Z) /\
    (alpha <= 0 -> 0 < K -> k <= 0).
Proof.
  cbv zeta. eexists. split.
  { unfold stabilize, bind, fixpoint_stabilization, adaptivity_stabilize,
      modify. reflexivity. }
  split; [|split; [|split]].
  - simpl. now rewrite <- app_assoc.
  - reflexivity.
  - intros ->. simpl. split; reflexivity.
  - intros Ha HK.
    pose proof (std_min_le (fst (FixedPointIteration_stabilization
                                   (fixpoint s) 1 0%Z))) as Hm.
    nra.
Qed.


(** ** Sampling of one slab *)

Lemma saved_times_off (fuel : nat) (slab : TimeSlab.t) (s : TimeStepper) :
  save_solution s = false -> saved_times fuel slab s = Some [].
Proof. intros H. unfold saved_times. now rewrite H. Qed.

Lemma saved_times_returns (slab : TimeSlab.t) (s : TimeStepper) :
  save_solution s = false \/ 0 < cadence s ->
  exists fuel0, forall fuel, (fuel0 <= fuel)%nat ->
    exists l, saved_times fuel slab s = Some l.
Proof.
  intros [Hsv|HK].
  - exists O. intros fuel _. exists []. now apply saved_times_off.
  - exists (Z.to_nat (Qceiling (TimeSlab.endtime slab / cadence s) -
                      Qceiling (TimeSlab.starttime slab / cadence s))).
    intros fuel Hfuel. unfold saved_times.
    destruct (save_solution s); cbn [negb]; [|now exists []].
    destruct (loop_times_multiples (cadence s) (TimeSlab.endtime slab) HK fuel
                (Qceiling (TimeSlab.starttime slab / cadence s))
                (ceil (TimeSlab.starttime slab / cadence s) * cadence s))
      as [l [Hl _]]; [reflexivity|lia|].
    rewrite Hl. eexists. reflexivity.
Qed.

(** ** Converged iterations *)


(** C6: in [createFirstTimeSlab], after a converged iteration, the
    controller's [accept] is queried exactly when [fixed()] is false.  With
    [fixed()] true the attempt, whenever it comes back, has accepted the
    slab without a query of [accept]; with [fixed()] false and [accept]
    false the controller's [shift] is called on the solution that still
    holds the tentative values, then [u.reset()], and the attempt is
    rejected with [t], progress, finished flag and sample file unchanged;
    with [accept] true the slab is accepted. *)
Theorem C6_first_slab_residual_check (s : TimeStepper) :
  converged (SimpleTimeSlab s) s = true ->
  let slab := SimpleTimeSlab s in
  let s1 := iterated slab s in
  (Adaptivity_fixed (adaptivity s1) = true ->
   forall fuel b s',
     createFirstTimeSlab fuel s = Some (b, s') ->
     b = true /\ t s' = TimeSlab.endtime slab /\
     calls s' = calls s ++ [New_SimpleTimeSlab slab; Call_iterate slab;
                            Call_fixed; Call_Adaptivity_shift (u s1);
                            Call_Solution_shift (TimeSlab.endtime slab)]) /\
  (Adaptivity_fixed (adaptivity s1) = false ->
   Adaptivity_accept slab (u s1) (adaptivity s1) = false ->
   forall fuel, exists s',
     createFirstTimeSlab fuel s = Some (false, s') /\
     calls s' = calls s ++ [New_SimpleTimeSlab slab; Call_iterate slab;
                            Call_fixed; Call_accept slab;
                            Call_Adaptivity_shift (u s1); Call_reset] /\
     adaptivity s' = Adaptivity_shift (u s1) (adaptivity s1) /\
     u s' = Solution.reset (u s1) /\
     (Solution.clean (u s) -> u s' = u s) /\
     t s' = t s /\ p s' = p s /\ _finished s' = _finished s /\
     file s' = file s) /\
  (Adaptivity_fixed (adaptivity s1) = false ->
   Adaptivity_accept slab (u s1) (adaptivity s1) = true ->
   forall fuel b s',
     createFirstTimeSlab fuel s = Some (b, s') ->
     b = true /\ t s' = TimeSlab.endtime slab /\
     calls s' = calls s ++ [New_SimpleTimeSlab slab; Call_iterate slab;
                            Call_fixed; Call_accept slab;
                            Call_Adaptivity_shift (u s1);
                            Call_Solution_shift (TimeSlab.endtime slab)]) /\
  (save_solution s = false \/ 0 < cadence s ->
   exists fuel0, forall fuel, (fuel0 <= fuel)%nat ->
     exists b s', createFirstTimeSlab fuel s = Some (b, s')).
Proof.
  intros Hc. cbv zeta. split; [|split; [|split]].
  - intros Hfx fuel b s'. rewrite createFirstTimeSlab_eq. cbv zeta.
    rewrite Hc. cbn [negb].
    change (adaptivity (iterated (SimpleTimeSlab s)
                          (log (New_SimpleTimeSlab (SimpleTimeSlab s)) s)))
      with (adaptivity (iterated (SimpleTimeSlab s) s)).
    rewrite Hfx. cbn [negb].
    destruct (saved_times fuel _ s) as [l|]; [|discriminate].
    intros H. injection H as <- <-. simpl. repeat split.
    now rewrite <- !app_assoc.
  - intros Hfx Hacc fuel. eexists. split.
    + rewrite createFirstTimeSlab_eq. cbv zeta. rewrite Hc. cbn [negb].
      change (adaptivity (iterated (SimpleTimeSlab s)
                            (log (New_SimpleTimeSlab (SimpleTimeSlab s)) s)))
        with (adaptivity (iterated (SimpleTimeSlab s) s)).
      change (u (iterated (SimpleTimeSlab s)
                   (log (New_SimpleTimeSlab (SimpleTimeSlab s)) s)))
        with (u (iterated (SimpleTimeSlab s) s)).
      rewrite Hfx. cbn [negb]. rewrite Hacc. cbn [negb]. reflexivity.
    + simpl. repeat split.
      * now rewrite <- !app_assoc.
      * intros Hclean. now apply reset_update_clean.
  - intros Hfx Hacc fuel b s'. rewrite createFirstTimeSlab_eq. cbv zeta.
    rewrite Hc. cbn [negb].
    change (adaptivity (iterated (SimpleTimeSlab s)
                          (log (New_SimpleTimeSlab (SimpleTimeSlab s)) s)))
      with (adaptivity (iterated (SimpleTimeSlab s) s)).
    change (u (iterated (SimpleTimeSlab s)
                 (log (New_SimpleTimeSlab (SimpleTimeSlab s)) s)))
      with (u (iterated (SimpleTimeSlab s) s)).
    rewrite Hfx. cbn [negb]. rewrite Hacc. cbn [negb].
    destruct (saved_times fuel _ s) as [l|]; [|discriminate].
    intros H. injection H as <- <-. simpl. repeat split.
    now rewrite <- !app_assoc.
  - intros Hsave.
    destruct (saved_times_returns (SimpleTimeSlab s) s Hsave) as [fuel0 H].
    exists fuel0. intros fuel Hfuel. destruct (H fuel Hfuel) as [l Hl].
    rewrite createFirstTimeSlab_eq. cbv zeta. rewrite Hc, Hl. cbn [negb].
    destruct (Adaptivity_fixed _); cbn [negb]; [do 2 eexists; reflexivity|].
    destruct (Adaptivity_accept _ _ _); cbn [negb]; do 2 eexists; reflexivity.
Qed.

(** ** [step] *)

Lemma step_loop_attempts (fuel : nat) :
  forall (n : nat) (s s' : TimeStepper),
    step_loop n fuel s = Some (tt, s') <->
    exists k, (k <= n)%nat /\ attempts fuel k s s'.
Proof.
  induction n as [|n IH]; intros s s'.
  - simpl. unfold diverge. split; [discriminate|].
    intros [k [Hk Ha]]. destruct Ha; lia.
  - cbn [step_loop]. unfold bind.
    destruct (createTimeSlab fuel s) as [[[|] s1]|] eqn:Hc; cbn [negb].
    + unfold ret. split.
      * intros H. injection H as <-. exists 1%nat. split; [lia|].
        now apply attempts_accepted.
      * intros [k [Hk Ha]]. destruct Ha as [s0 s0' H|k s0 s0' s0'' H _];
          rewrite H in Hc; [now injection Hc as <-|discriminate].
    + rewrite IH. split.
      * intros [k [Hk Ha]]. exists (S k). split; [lia|].
        eapply attempts_rejected; eassumption.
      * intros [k [Hk Ha]]. destruct Ha as [s0 s0' H|k s0 s0' s0'' H Ha];
          rewrite H in Hc; [discriminate|].
        injection Hc as <-. exists k. split; [lia|exact Ha].
    + split; [discriminate|].
      intros [k [Hk Ha]]. destruct Ha as [s0 s0' H|k s0 s0' s0'' H _];
        rewrite H in Hc; discriminate.
Qed.

Lemma saved_times_mono (fuel fuel' : nat) (slab : TimeSlab.t)
    (s : TimeStepper) (l : list real) :
  (fuel <= fuel')%nat ->
  saved_times fuel slab s = Some l -> saved_times fuel' slab s = Some l.
Proof.
  intros Hle. unfold saved_times.
  destruct (negb (save_solution s)); [easy|].
  destruct (loop_times fuel _ _ _) as [l0|] eqn:Hl; [|discriminate].
  now rewrite (loop_times_mono _ _ fuel fuel' _ l0 Hle Hl).
Qed.

Lemma createTimeSlab_mono (fuel fuel' : nat) (s : TimeStepper)
    (r : bool * TimeStepper) :
  (fuel <= fuel')%nat ->
  createTimeSlab fuel s = Some r -> createTimeSlab fuel' s = Some r.
Proof.
  intros Hle. rewrite !createTimeSlab_eq.
  destruct (Qeq_bool (t s) 0).
  - rewrite !createFirstTimeSlab_eq. cbv zeta.
    destruct (negb (converged _ s)); [easy|].
    destruct (negb (Adaptivity_fixed _)).
    + destruct (negb (Adaptivity_accept _ _ _)); [easy|].
      destruct (saved_times fuel _ s) as [l|] eqn:Hl; [|discriminate].
      now rewrite (saved_times_mono fuel fuel' _ s l Hle Hl).
    + destruct (saved_times fuel _ s) as [l|] eqn:Hl; [|discriminate].
      now rewrite (saved_times_mono fuel fuel' _ s l Hle Hl).
  - rewrite !createGeneralTimeSlab_eq. cbv zeta.
    destruct (negb (converged _ s)); [easy|].
    destruct (saved_times fuel _ s) as [l|] eqn:Hl; [|discriminate].
    now rewrite (saved_times_mono fuel fuel' _ s l Hle Hl).
Qed.

Lemma attempts_mono (fuel fuel' k : nat) (s s' : TimeStepper) :
  (fuel <= fuel')%nat -> attempts fuel k s s' -> attempts fuel' k s s'.
Proof.
  intros Hle. induction 1 as [s s' H|k s s1 s' H _ IH].
  - apply attempts_accepted. now apply (createTimeSlab_mono fuel).
  - eapply attempts_rejected; [|exact IH]. now apply (createTimeSlab_mono fuel).
Qed.

(** C4: [step] comes back exactly when some attempt is accepted, after the
    rejected attempts that precede it, and then returns the current time of
    the members that accepted attempt left; a rejected attempt only leads to
    the next attempt.  Whenever such a chain of attempts exists, [step]
    does come back once the loops are given enough fuel. *)
Theorem C4_step_retries :
  (forall fuel s s' r,
      step fuel s = Some (r, s') <->
      (exists k, (k <= fuel)%nat /\ attempts fuel k s s') /\ r = t s') /\
  (forall fuel0 k s s',
      attempts fuel0 k s s' ->
      forall fuel, (fuel0 <= fuel)%nat -> (k <= fuel)%nat ->
        step fuel s = Some (t s', s')).
Proof.
  assert (Hiff : forall fuel s s' r,
             step fuel s = Some (r, s') <->
             (exists k, (k <= fuel)%nat /\ attempts fuel k s s') /\ r = t s').
  { intros fuel s s' r. unfold step, bind, gets. split.
    - destruct (step_loop fuel fuel s) as [[[] s1]|] eqn:Hs; [|discriminate].
      intros H. injection H as <- <-. split; [|reflexivity].
      now apply step_loop_attempts.
    - intros [Ha ->]. apply step_loop_attempts in Ha. now rewrite Ha. }
  split; [exact Hiff|].
  intros fuel0 k s s' Ha fuel Hf Hk. apply Hiff. split; [|reflexivity].
  exists k. split; [exact Hk|]. now apply (attempts_mono fuel0).
Qed.

(** ** Construction *)

(** C9, as the code has it: the constructor checks nothing.  For every
    size, end time and sample count it yields a stepper with [t = 0], the
    given [T], [N] and sample count, not finished, with no call made and
    no sample written, and [solve] then goes straight into [step]. *)
Theorem C9_constructor_unchecked (ode : ODE) (n : Z) (sv : bool) :
  let s := TimeStepper_create ode n sv in
  t s = 0 /\ T s = ode_endtime ode /\ N s = ode_size ode /\
  no_samples s = n /\ save_solution s = sv /\ _finished s = false /\
  calls s = [] /\ file s = [] /\
  forall k fuel,
    solve_loop (S k) fuel s =
    bind (step fuel) (fun _ => solve_loop k fuel) s.
Proof. cbv zeta. repeat split. Qed.

End Properties.

(** * Concrete runs *)

Lemma invariant_check (l : list TimeSlab.t) :
  forallb TimeSlab.invariantb l = true -> Forall TimeSlab.invariant l.
Proof.
  intros H. apply Forall_forall. intros slab Hin.
  rewrite forallb_forall in H. specialize (H slab Hin).
  unfold TimeSlab.invariantb in H. apply andb_true_iff in H as [H1 H2].
  apply negb_true_iff in H1. apply Qle_bool_iff in H2.
  split; [|exact H2].
  destruct (Qlt_le_dec (TimeSlab.starttime slab) (TimeSlab.endtime slab))
    as [Hlt|Hle]; [exact Hlt|].
  apply Qle_bool_iff in Hle. congruence.
Qed.

Lemma demo_run_ok : run demo_start (fst demo_run) (snd demo_run).
Proof.
  apply (run_exec_sound demo_start 100 100 [] demo_start).
  - apply run_start.
  - vm_compute. reflexivity.
Qed.

Lemma demo_run_invariant : Forall TimeSlab.invariant (fst demo_run).
Proof. apply invariant_check. vm_compute. reflexivity. Qed.

Lemma demo_run_advances :
  Forall (fun slab => TimeSlab.starttime slab < TimeSlab.endtime slab)
    (fst demo_run).
Proof.
  eapply Forall_impl; [|exact demo_run_invariant]. intros slab [H _]. exact H.
Qed.

Lemma C1_witness :
  0 <= t (snd demo_run) /\ t (snd demo_run) <= T (snd demo_run) /\
  t (snd demo_run) = last_end 0 (fst demo_run) /\
  StronglySorted Qlt (0 :: map TimeSlab.endtime (fst demo_run)).
Proof.
  apply (proj1 (proj2 (@C1_time_invariant (toy false None)))
           (decay 10) 5%Z true (fst demo_run) (snd demo_run)).
  - simpl. lra.
  - exact demo_run_ok.
  - exact demo_run_invariant.
Defined.


Lemma C3_witness :
  (exists s',
      createFirstTimeSlab 0 demo_start = Some (false, s') /\
      rejected_on_divergence (New_SimpleTimeSlab (SimpleTimeSlab demo_start))
        (SimpleTimeSlab demo_start) demo_start s') /\
  (exists s',
      createGeneralTimeSlab 0 demo_late = Some (false, s') /\
      rejected_on_divergence
        (New_RecursiveTimeSlab (RecursiveTimeSlab demo_late))
        (RecursiveTimeSlab demo_late) demo_late s') /\
  (exists s',
      createTimeSlab 0 demo_start = Some (false, s') /\ u s' = u demo_start).
Proof.
  split; [|split].
  - apply (proj1 (@C3_iteration_failure (toy false None))). reflexivity.
  - apply (proj1 (proj2 (@C3_iteration_failure (toy false None)))).
    reflexivity.
  - eexists. split; [vm_compute; reflexivity|].
    apply (proj2 (proj2 (proj2 (proj2 (@C3_iteration_failure
                                         (toy false None)))))
             (decay 10) 5%Z true [] demo_start 0%nat).
    + apply run_start.
    + vm_compute. reflexivity.
Defined.

Lemma C4_witness :
  (exists k, (k <= 10)%nat /\ attempts 10 k demo_start (snd demo_step)) /\
  fst demo_step = t (snd demo_step).
Proof.
  apply (proj1 (@C4_step_retries (toy false None))).
  vm_compute. reflexivity.
Defined.

Lemma C5_witness :
  exists s',
    createTimeSlab 0 demo_start = Some (false, s') /\
    let K := TimeSlab.length (next_slab demo_start) in
    let alpha := fst (reported (tried demo_start)) in
    let m := snd (reported (tried demo_start)) in
    let k := std_min alpha (1 # 2) * K in
    stabilize_calls (calls s') = stabilize_calls (calls demo_start) ++ [(k, m)] /\
    adaptivity s' = Adaptivity_stabilize k m (adaptivity (tried demo_start)) /\
    k <= (1 # 2) * K.
Proof.
  destruct (C5_stabilized_step 0 demo_start eq_refl)
    as (s' & Hc & Hcalls & Ha & Hk).
  exists s'. split; [exact Hc|]. split; [exact Hcalls|]. split; [exact Ha|].
  apply Hk. vm_compute. discriminate.
Defined.

Lemma C6_witness :
  exists s',
    createFirstTimeSlab 0 demo_unit = Some (false, s') /\
    u s' = u demo_unit /\ t s' = t demo_unit /\ p s' = p demo_unit /\
    _finished s' = _finished demo_unit /\ file s' = file demo_unit.
Proof.
  destruct (proj1 (proj2 (C6_first_slab_residual_check demo_unit eq_refl))
              eq_refl eq_refl 0%nat)
    as (s' & Hc & _ & _ & _ & Hu & Ht & Hp & Hf & Hfile).
  exists s'. split; [exact Hc|].
  split; [apply Hu; reflexivity|]. now repeat split.
Defined.

Lemma C7_witness :
  Qeq_bool (t (snd demo_run)) 0 = true <-> fst demo_run = [].
Proof.
  apply (proj2 (proj2 (@C7_slab_path (toy false None))) (decay 10) 5%Z true).
  - exact demo_run_ok.
  - exact demo_run_advances.
Defined.

(** C9 as the spec states it fails: with size [0], end time [0] and [0]
    samples the stepper is constructed, [solve] attempts a slab, accepts it
    and writes a sample. *)
Lemma C9_counterexample :
  (ode_size empty_ode = 0%Z /\ ode_endtime empty_ode <= 0 /\ (0 <= 0)%Z) /\
  invalid_configuration empty_ode 0 /\
  exists s,
    solve (C := toy false None) 2 empty_ode 0 true = Some s /\
    _finished s = true /\
    map sample_t (file s) = [0] /\
    exists rest,
      calls s =
      New_SimpleTimeSlab (TimeSlab.mk 0 0 0) ::
      Call_iterate (TimeSlab.mk 0 0 0) :: rest.
Proof.
  split; [|split].
  - repeat split; [apply Qle_refl|apply Z.le_refl].
  - left. reflexivity.
  - eexists. split; [vm_compute; reflexivity|].
    split; [reflexivity|]. split; [reflexivity|].
    eexists. reflexivity.
Qed.

Lemma C10_witness :
  (exists s',
      stabilize 4 demo_start = Some (tt, s') /\
      calls s' =
      [Call_stabilization; Call_Adaptivity_stabilize ((1 # 2) * 4) 0]) /\
  (exists s' k m,
      stabilize 4 demo_negative = Some (tt, s') /\
      calls s' = [Call_stabilization; Call_Adaptivity_stabilize k m] /\
      k <= 0).
Proof.
  split.
  - destruct (C10_stabilize_defaults 4 demo_start)
      as (s' & Hs & Hc & _ & Hdef & _).
    destruct (Hdef eq_refl) as [Hk Hm].
    exists s'. split; [exact Hs|]. rewrite Hc, Hk, Hm. reflexivity.
  - destruct (C10_stabilize_defaults 4 demo_negative)
      as (s' & Hs & Hc & _ & _ & Hneg).
    exists s'. do 2 eexists. split; [exact Hs|]. split; [exact Hc|].
    apply Hneg; vm_compute; [discriminate|reflexivity].
Defined.

(** * Further properties of the stepper *)

Section Further.

Context {C : Collaborators}.

(** ** [solve] *)

Lemma attempts_run (s0 : TimeStepper) (fuel k : nat) (s s' : TimeStepper) :
  attempts fuel k s s' ->
  forall l, run s0 l s -> _finished s = false ->
    exists slab, run s0 (l ++ [slab]) s'.
Proof.
  induction 1 as [s s' Hc|k s s1 s' Hc _ IH]; intros l Hrun Hfin.
  - eexists. eapply run_accepted; eassumption.
  - apply IH.
    + eapply run_rejected; eassumption.
    + apply attempt_rejected in Hc. destruct Hc as (_ & _ & _ & Hf & _).
      congruence.
Qed.

Lemma solve_loop_run (s0 : TimeStepper) (fuel : nat) :
  forall (n : nat) (l : list TimeSlab.t) (s s' : TimeStepper),
    run s0 l s ->
    solve_loop n fuel s = Some (tt, s') ->
    exists l', run s0 l' s' /\ _finished s' = true.
Proof.
  induction n as [|n IH]; intros l s s' Hrun; [discriminate|].
  cbn [solve_loop]. unfold bind at 1. unfold finished, gets.
  destruct (_finished s) eqn:Hfin; cbn [negb].
  - unfold ret. intros H. injection H as <-. now exists l.
  - unfold bind at 1, step. unfold bind at 1.
    destruct (step_loop fuel fuel s) as [[[] s1]|] eqn:Hs; [|discriminate].
    unfold gets. apply step_loop_attempts in Hs. destruct Hs as (k & _ & Ha).
    destruct (attempts_run s0 fuel k s s1 Ha l Hrun Hfin) as [slab Hrun1].
    apply (IH _ _ _ Hrun1).
Qed.

(** A run that started unfinished is finished only through an accepted
    slab that ends at [T]. *)
Lemma run_finished (s0 : TimeStepper) (l : list TimeSlab.t) (s : TimeStepper) :
  run s0 l s -> _finished s0 = false -> _finished s = true ->
  t s == T s0 /\ p s = 1 /\ l <> [].
Proof.
  intros Hrun H0.
  induction Hrun as [|l s s' fuel Hrun IH Hfin Hc|l s s' fuel Hrun IH Hfin Hc];
    intros Hf.
  - congruence.
  - apply attempt_rejected in Hc. destruct Hc as (_ & _ & _ & Hf' & _).
    congruence.
  - destruct (run_frame _ _ _ Hrun) as (HT & _).
    apply attempt_accepted in Hc. cbv zeta in Hc.
    destruct Hc as (_ & Ht & _ & Hp & Hf' & _).
    unfold TimeSlab.finished in Hp, Hf'. rewrite next_slab_reach in Hp, Hf'.
    rewrite Hf' in Hf.
    destruct (Qeq_bool (TimeSlab.endtime (next_slab s)) (T s)) eqn:He;
      [|congruence].
    apply Qeq_bool_eq in He. rewrite Ht, Hp, <- HT.
    repeat split; [exact He|]. now destruct l.
Qed.

(** When [solve] comes back, the stepper it leaves was reached by a run of
    attempts from the constructed stepper, is finished, stands at a time
    equal to the end time of the problem with progress [1], and still has
    the configuration it was constructed with. *)
Theorem solve_ends_finished (fuel : nat) (ode : ODE) (n : Z) (sv : bool)
    (s : TimeStepper) :
  solve fuel ode n sv = Some s ->
  (exists l, l <> [] /\ run (TimeStepper_create ode n sv) l s) /\
  _finished s = true /\ t s == ode_endtime ode /\ p s = 1 /\
  T s = ode_endtime ode /\ no_samples s = n /\ save_solution s = sv /\
  N s = ode_size ode.
Proof.
  unfold solve.
  destruct (solve_loop fuel fuel (TimeStepper_create ode n sv))
    as [[[] s1]|] eqn:Hs; [|discriminate].
  intros H. injection H as <-.
  destruct (solve_loop_run _ fuel fuel [] _ _ (run_start _) Hs) as (l & Hrun & Hf).
  destruct (run_finished _ _ _ Hrun eq_refl Hf) as (Ht & Hp & Hl).
  destruct (run_frame _ _ _ Hrun) as (HT & Hn & Hsv & HN).
  split; [exists l; now split|]. now repeat split.
Qed.

(** ** The retry loop of [step] *)

Lemma step_loop_never (fuel : nat) :
  never_converges ->
  forall (n : nat) (s : TimeStepper), step_loop n fuel s = None.
Proof.
  intros Hnever. induction n as [|n IH]; intros s; [reflexivity|].
  cbn [step_loop]. unfold bind.
  rewrite attempt_diverged by apply Hnever. cbn [negb]. apply IH.
Qed.

(** The retry loop has no bound of its own: with an iteration that
    converges on no slab every attempt is rejected and leaves the time where
    it is, [step] does not come back whatever the fuel, and neither does
    [solve]. *)
Theorem step_retries_without_bound :
  never_converges ->
  (forall fuel s,
      exists s', createTimeSlab fuel s = Some (false, s') /\ t s' = t s) /\
  (forall fuel s, step fuel s = None) /\
  (forall fuel ode n sv, solve fuel ode n sv = None).
Proof.
  intros Hnever. split; [|split].
  - intros fuel s. eexists. split; [apply attempt_diverged, Hnever|].
    simpl. unfold tried. now destruct (Qeq_bool (t s) 0).
  - intros fuel s. unfold step, bind. now rewrite step_loop_never.
  - intros fuel ode n sv. unfold solve.
    destruct fuel as [|fuel]; [reflexivity|].
    cbn [solve_loop]. unfold finished, step, gets, bind.
    cbn [_finished TimeStepper_create negb].
    now rewrite step_loop_never.
Qed.

(** ** What [step] changes *)

Lemma same_outside_refl (s : TimeStepper) : same_outside_collaborators s s.
Proof. unfold same_outside_collaborators. now repeat split. Qed.

Lemma attempts_last (fuel k : nat) (s s' : TimeStepper) :
  attempts fuel k s s' ->
  exists s1,
    same_outside_collaborators s s1 /\
    createTimeSlab fuel s1 = Some (true, s').
Proof.
  induction 1 as [s s' Hc|k s s1 s' Hc _ IH].
  - exists s. split; [apply same_outside_refl|exact Hc].
  - destruct IH as (s2 & Hsame & Hc2). exists s2. split; [|exact Hc2].
    apply attempt_rejected in Hc.
    destruct Hc as (Ht & HT & Hp & Hf & Hfile & Hn & Hsv & HN & _).
    destruct Hsame as (Ht' & HT' & Hp' & Hf' & Hfile' & Hn' & Hsv' & HN').
    unfold same_outside_collaborators. repeat split; congruence.
Qed.

(** Whatever attempts [step] makes before it comes back, the time, end
    time, progress, finished flag, sample file and configuration change
    only through the one accepted attempt it ends with; that attempt's slab
    starts at the time [step] was called at, and [step] returns its end
    time. *)
Theorem step_changes_by_one_slab (fuel : nat) (s s' : TimeStepper)
    (r : real) :
  step fuel s = Some (r, s') ->
  exists s1,
    same_outside_collaborators s s1 /\
    createTimeSlab fuel s1 = Some (true, s') /\
    TimeSlab.starttime (next_slab s1) = t s /\
    r = TimeSlab.endtime (next_slab s1) /\
    t s' = r /\ T s' = T s /\ no_samples s' = no_samples s /\
    save_solution s' = save_solution s /\ N s' = N s.
Proof.
  unfold step, bind, gets.
  destruct (step_loop fuel fuel s) as [[[] s2]|] eqn:Hs; [|discriminate].
  intros H. injection H as <- <-.
  apply step_loop_attempts in Hs. destruct Hs as (k & _ & Ha).
  destruct (attempts_last fuel k s s2 Ha) as (s1 & Hsame & Hc).
  exists s1. split; [exact Hsame|]. split; [exact Hc|].
  destruct Hsame as (Ht & HT & _ & _ & _ & Hn & Hsv & HN).
  apply attempt_accepted in Hc. cbv zeta in Hc.
  destruct Hc as (_ & Ht' & HT' & _ & _ & _ & Hn' & Hsv' & HN' & _).
  rewrite next_slab_starttime. repeat split; congruence.
Qed.

Lemma next_slab_advances (s : TimeStepper) :
  slabs_advance -> t s < T s ->
  t s < TimeSlab.endtime (next_slab s) /\
  TimeSlab.endtime (next_slab s) <= T s.
Proof.
  intros [Hsimple Hrec] Hlt. unfold next_slab.
  destruct (Qeq_bool (t s) 0); simpl; [apply Hsimple|apply Hrec]; exact Hlt.
Qed.

(** With slab constructors that return a slab ending after its start and
    not after [T], a [step] taken before [T] that comes back has moved the
    time strictly forward and not beyond [T]. *)
Theorem step_advances_time (fuel : nat) (s s' : TimeStepper) (r : real) :
  slabs_advance -> t s < T s ->
  step fuel s = Some (r, s') ->
  t s < r /\ r <= T s /\ t s' = r.
Proof.
  intros Hadv Hlt Hstep.
  unfold step, bind, gets in Hstep.
  destruct (step_loop fuel fuel s) as [[[] s2]|] eqn:Hs; [|discriminate].
  injection Hstep as <- <-.
  apply step_loop_attempts in Hs. destruct Hs as (k & _ & Ha).
  destruct (attempts_last fuel k s s2 Ha) as (s1 & Hsame & Hc).
  destruct Hsame as (Ht & HT & _).
  apply attempt_accepted in Hc. cbv zeta in Hc. destruct Hc as (_ & Ht' & _).
  destruct (next_slab_advances s1 Hadv) as [H1 H2]; [rewrite Ht, HT; exact Hlt|].
  rewrite Ht'. rewrite <- Ht, <- HT. now repeat split.
Qed.

(** ** Saving switched off *)

(** With [save solution] off the loop of [save] is never entered: an
    attempt needs no fuel, whatever the sample count, and no run writes to
    the sample file. *)
Theorem saving_off_writes_nothing :
  (forall fuel s,
      save_solution s = false ->
      createTimeSlab fuel s = createTimeSlab 0 s /\
      exists b s', createTimeSlab fuel s = Some (b, s') /\ file s' = file s) /\
  (forall s0 l s,
      run s0 l s -> save_solution s0 = false -> file s = file s0).
Proof.
  split.
  - intros fuel s Hsv.
    assert (Heq : createTimeSlab fuel s = createTimeSlab 0 s).
    { rewrite !createTimeSlab_eq.
      destruct (Qeq_bool (t s) 0).
      - rewrite !createFirstTimeSlab_eq. cbv zeta.
        now rewrite !saved_times_off by exact Hsv.
      - rewrite !createGeneralTimeSlab_eq. cbv zeta.
        now rewrite !saved_times_off by exact Hsv. }
    split; [exact Heq|].
    destruct (createTimeSlab fuel s) as [[[|] s']|] eqn:Hc.
    + exists true, s'. split; [reflexivity|].
      apply attempt_accepted in Hc. cbv zeta in Hc.
      destruct Hc as (_ & _ & _ & _ & _ & (l0 & Hl0 & Hfile) & _).
      rewrite saved_times_off in Hl0 by exact Hsv. injection Hl0 as <-.
      rewrite Hfile. apply app_nil_r.
    + exists false, s'. split; [reflexivity|].
      apply attempt_rejected in Hc. now destruct Hc as (_ & _ & _ & _ & Hfile & _).
    + exfalso. revert Hc. rewrite createTimeSlab_eq.
      destruct (Qeq_bool (t s) 0).
      * rewrite createFirstTimeSlab_eq. cbv zeta.
        rewrite saved_times_off by exact Hsv.
        destruct (negb (converged _ s)); [discriminate|].
        destruct (negb (Adaptivity_fixed _)); [|discriminate].
        destruct (negb (Adaptivity_accept _ _ _)); discriminate.
      * rewrite createGeneralTimeSlab_eq. cbv zeta.
        rewrite saved_times_off by exact Hsv.
        destruct (negb (converged _ s)); discriminate.
  - intros s0 l s Hrun Hsv.
    induction Hrun as [|l s s' fuel Hrun IH _ Hc|l s s' fuel Hrun IH _ Hc].
    + reflexivity.
    + apply attempt_rejected in Hc. destruct Hc as (_ & _ & _ & _ & Hfile & _).
      congruence.
    + destruct (run_frame _ _ _ Hrun) as (_ & _ & Hsave & _).
      apply attempt_accepted in Hc. cbv zeta in Hc.
      destruct Hc as (_ & _ & _ & _ & _ & (l0 & Hl0 & Hfile) & _).
      rewrite saved_times_off in Hl0 by congruence. injection Hl0 as <-.
      rewrite Hfile, app_nil_r. exact IH.
Qed.


(** ** A negative sample interval *)

Lemma loop_times_negative (K e : Q) :
  K < 0 ->
  forall (fuel : nat) (t0 : Q), t0 < e -> loop_times fuel K t0 e = None.
Proof.
  intros HK. induction fuel as [|fuel IH]; intros t0 Hlt; simpl.
  - destruct (Qlt_le_dec t0 e); [reflexivity|lra].
  - destruct (Qlt_le_dec t0 e); [|lra].
    rewrite IH; [reflexivity|lra].
Qed.

(** With saving on, a negative sample interval [K = T / no_samples] and a
    first sample time [ceil(starttime / K) * K] before the slab's end, the
    loop of [save] steps away from the end for ever: [save] does not come
    back, and neither does an attempt of the general path whose iteration
    has converged. *)
Theorem save_hangs_on_negative_interval (slab : TimeSlab.t)
    (s : TimeStepper) :
  save_solution s = true -> cadence s < 0 ->
  ceil (TimeSlab.starttime slab / cadence s) * cadence s
    < TimeSlab.endtime slab ->
  (forall fuel, save fuel slab s = None) /\
  (slab = RecursiveTimeSlab s -> converged slab s = true ->
   forall fuel, createGeneralTimeSlab fuel s = None).
Proof.
  intros Hsv HK Hfirst.
  assert (Hnone : forall fuel, saved_times fuel slab s = None).
  { intros fuel. unfold saved_times. rewrite Hsv. cbn [negb].
    now rewrite loop_times_negative. }
  split.
  - intros fuel. now rewrite save_eq, Hnone.
  - intros -> Hc fuel. rewrite createGeneralTimeSlab_eq. cbv zeta.
    now rewrite Hc, Hnone.
Qed.

(** ** Progress *)

(** From a state whose progress equals [t / T], with [T > 0], every state
    of a run has progress equal to [t / T]: the value [1.0] stored for the
    final slab agrees with the quotient.  When the accepted slabs satisfy
    the slab invariant, the progress lies in [[0, 1]]. *)
Theorem progress_is_fraction (s0 : TimeStepper) (l : list TimeSlab.t)
    (s : TimeStepper) :
  run s0 l s ->
  0 < T s0 -> p s0 == t s0 / T s0 ->
  p s == t s / T s /\
  (0 <= t s0 -> t s0 <= T s0 -> Forall TimeSlab.invariant l ->
   0 <= p s /\ p s <= 1).
Proof.
  intros Hrun HT Hp0.
  assert (Hp : p s == t s / T s).
  { induction Hrun as [|l s s' fuel Hrun IH _ Hc|l s s' fuel Hrun IH _ Hc].
    - exact Hp0.
    - apply attempt_rejected in Hc. destruct Hc as (Ht & HTs & Hp & _).
      rewrite Ht, HTs, Hp. exact IH.
    - destruct (run_frame _ _ _ Hrun) as (HTs & _).
      apply attempt_accepted in Hc. cbv zeta in Hc.
      destruct Hc as (_ & Ht & HT' & Hp & _).
      unfold TimeSlab.finished in Hp. rewrite next_slab_reach in Hp.
      rewrite Ht, HT', Hp.
      destruct (Qeq_bool (TimeSlab.endtime (next_slab s)) (T s)) eqn:He;
        [|reflexivity].
      apply Qeq_bool_eq in He. rewrite He. field. rewrite HTs. lra. }
  split; [exact Hp|].
  intros H0 H1 Hinv.
  destruct (run_bounds _ _ _ Hrun H0 H1 Hinv) as (Hlo & Hhi & _).
  destruct (run_frame _ _ _ Hrun) as (HTs & _).
  rewrite Hp. split.
  - apply Qle_shift_div_l; [rewrite HTs; exact HT|lra].
  - apply Qle_shift_div_r; [rewrite HTs; exact HT|lra].
Qed.

(** ** Calls on the collaborators along a run *)

Lemma count_calls_app (f : Call -> bool) (l1 l2 : list Call) :
  count_calls f (l1 ++ l2) = (count_calls f l1 + count_calls f l2)%nat.
Proof. unfold count_calls. now rewrite filter_app, length_app. Qed.

Lemma shift_calls_app (l1 l2 : list Call) :
  shift_calls (l1 ++ l2) = shift_calls l1 ++ shift_calls l2.
Proof. unfold shift_calls. apply flat_map_app. Qed.

(** Closes a goal that reads the calls of one attempt off its closed
    form. *)
Ltac read_calls :=
  let H := fresh "H" in
  intros H; injection H as <- <-; eexists; split;
  [ simpl; rewrite <- !app_assoc; reflexivity
  | repeat split; try reflexivity; discriminate ].

Lemma attempt_calls (fuel : nat) (s : TimeStepper) (b : bool)
    (s' : TimeStepper) :
  createTimeSlab fuel s = Some (b, s') ->
  exists cs,
    calls s' = calls s ++ cs /\
    shift_calls cs = (if b then [TimeSlab.endtime (next_slab s)] else []) /\
    count_calls is_iterate cs = 1%nat /\
    count_calls is_reset cs = (if b then 0 else 1)%nat /\
    (Qeq_bool (t s) 0 = false -> count_calls is_residual_query cs = 0%nat).
Proof.
  rewrite createTimeSlab_eq. unfold next_slab.
  destruct (Qeq_bool (t s) 0).
  - rewrite createFirstTimeSlab_eq. cbv zeta.
    destruct (converged (SimpleTimeSlab s) s); cbn [negb]; [|read_calls].
    destruct (Adaptivity_fixed _); cbn [negb].
    + destruct (saved_times fuel _ s); [read_calls|discriminate].
    + destruct (Adaptivity_accept _ _ _); cbn [negb]; [|read_calls].
      destruct (saved_times fuel _ s); [read_calls|discriminate].
  - rewrite createGeneralTimeSlab_eq. cbv zeta.
    destruct (converged (RecursiveTimeSlab s) s); cbn [negb]; [|read_calls].
    destruct (saved_times fuel _ s); [read_calls|discriminate].
Qed.

(** Closes a goal that reads the order of the calls of one attempt off
    its closed form. *)
Ltac read_order :=
  let H := fresh "H" in
  intros H; injection H as <- <-; eexists;
  (eapply (ex_intro _ [_]) + eapply (ex_intro _ [_; _]) +
   eapply (ex_intro _ [_; _; _]));
  split;
  [ simpl; rewrite <- !app_assoc; reflexivity | repeat constructor ].

Lemma attempt_call_order (fuel : nat) (s : TimeStepper) (b : bool)
    (s' : TimeStepper) :
  createTimeSlab fuel s = Some (b, s') ->
  exists pre mid,
    calls s' =
    calls s ++
    pre :: Call_iterate (next_slab s) ::
    mid ++ [if b then Call_Solution_shift (TimeSlab.endtime (next_slab s))
            else Call_reset] /\
    Forall (fun c => is_iterate c = false /\ is_reset c = false /\
                     is_commit c = false) (pre :: mid).
Proof.
  rewrite createTimeSlab_eq. unfold next_slab.
  destruct (Qeq_bool (t s) 0).
  - rewrite createFirstTimeSlab_eq. cbv zeta.
    destruct (converged (SimpleTimeSlab s) s); cbn [negb]; [|read_order].
    destruct (Adaptivity_fixed _); cbn [negb].
    + destruct (saved_times fuel _ s); [read_order|discriminate].
    + destruct (Adaptivity_accept _ _ _); cbn [negb]; [|read_order].
      destruct (saved_times fuel _ s); [read_order|discriminate].
  - rewrite createGeneralTimeSlab_eq. cbv zeta.
    destruct (converged (RecursiveTimeSlab s) s); cbn [negb]; [|read_order].
    destruct (saved_times fuel _ s); [read_order|discriminate].
Qed.

(** Every attempt that comes back has called the iteration exactly once, on
    the slab it built, and its last call is [u.shift] with the slab's end
    time when it accepted the slab and [u.reset] when it rejected it; it
    makes no other call of the iteration, of [u.shift] or of [u.reset].
    Hence along a run from the constructor the solution is committed once
    for each accepted slab, in order, at that slab's end time, never for a
    rejected attempt, and the calls of the iteration are as many as the
    accepted slabs and the resets together. *)
Theorem commits_follow_accepted_slabs :
  (forall fuel s b s',
      createTimeSlab fuel s = Some (b, s') ->
      exists pre mid,
        calls s' =
        calls s ++
        pre :: Call_iterate (next_slab s) ::
        mid ++ [if b
                then Call_Solution_shift (TimeSlab.endtime (next_slab s))
                else Call_reset] /\
        Forall (fun c => is_iterate c = false /\ is_reset c = false /\
                         is_commit c = false) (pre :: mid)) /\
  (forall ode n sv l s,
      run (TimeStepper_create ode n sv) l s ->
      shift_calls (calls s) = map TimeSlab.endtime l /\
      count_calls is_iterate (calls s) =
      (List.length l + count_calls is_reset (calls s))%nat).
Proof.
  split; [exact attempt_call_order|].
  intros ode n sv l s.
  induction 1 as [|l s s' fuel _ IH _ Hc|l s s' fuel _ IH _ Hc].
  - split; reflexivity.
  - destruct (attempt_calls _ _ _ _ Hc) as (cs & Hcs & Hsh & Hit & Hre & _).
    destruct IH as [IH1 IH2].
    rewrite Hcs, shift_calls_app, !count_calls_app, Hsh, Hit, Hre, IH1, IH2.
    split; [apply app_nil_r|lia].
  - destruct (attempt_calls _ _ _ _ Hc) as (cs & Hcs & Hsh & Hit & Hre & _).
    destruct IH as [IH1 IH2].
    rewrite Hcs, shift_calls_app, !count_calls_app, Hsh, Hit, Hre, IH1, IH2.
    rewrite map_app, length_app. simpl. split; [reflexivity|lia].
Qed.

(** In a run whose accepted slabs end after they start, once a slab has
    been accepted no later attempt queries [adaptivity.fixed()] or
    [adaptivity.accept()]: the residual check can only act before the first
    acceptance. *)
Theorem residual_check_stops_after_first_slab (ode : ODE) (n : Z) (sv : bool)
    (l : list TimeSlab.t) (s : TimeStepper) (fuel : nat) (b : bool)
    (s' : TimeStepper) :
  run (TimeStepper_create ode n sv) l s ->
  Forall (fun slab => TimeSlab.starttime slab < TimeSlab.endtime slab) l ->
  l <> [] ->
  createTimeSlab fuel s = Some (b, s') ->
  count_calls is_residual_query (calls s') =
  count_calls is_residual_query (calls s).
Proof.
  intros Hrun Hadv Hl Hc.
  destruct (run_first_path _ l s Hrun) as [_ H0]; [reflexivity|exact Hadv|].
  assert (Ht : Qeq_bool (t s) 0 = false).
  { destruct (Qeq_bool (t s) 0) eqn:He; [|reflexivity].
    apply Qeq_bool_eq in He. apply H0 in He. contradiction. }
  destruct (attempt_calls _ _ _ _ Hc) as (cs & Hcs & _ & _ & _ & Hres).
  rewrite Hcs, count_calls_app, (Hres Ht). lia.
Qed.

(** ** Termination of [solve] with cooperating collaborators *)

Lemma saved_times_bounded (fuel : nat) (slab : TimeSlab.t) (s : TimeStepper) :
  save_solution s = true -> 0 < T s -> (0 < no_samples s)%Z ->
  0 <= TimeSlab.starttime slab -> TimeSlab.endtime slab <= T s ->
  (Z.to_nat (no_samples s) <= fuel)%nat ->
  exists l, saved_times fuel slab s = Some l.
Proof.
  intros Hsv HT Hn Hstart Hend Hfuel.
  assert (Hn' : 0 < inject_Z (no_samples s)).
  { change 0 with (inject_Z 0). now rewrite <- Zlt_Qlt. }
  assert (HK : 0 < cadence s).
  { unfold cadence. apply Qlt_shift_div_l; [exact Hn'|lra]. }
  assert (Hhi : (Qceiling (TimeSlab.endtime slab / cadence s)
                 <= no_samples s)%Z).
  { apply multiple_ge; [exact HK|].
    assert (H : inject_Z (no_samples s) * cadence s == T s).
    { unfold cadence. field. lra. }
    now rewrite H. }
  assert (Hlo : (0 <= Qceiling (TimeSlab.starttime slab / cadence s))%Z).
  { assert (H : (-1 < Qceiling (TimeSlab.starttime slab / cadence s))%Z).
    { apply multiple_lt; [exact HK|]. change (inject_Z (-1)) with (-1). lra. }
    lia. }
  unfold saved_times. rewrite Hsv. cbn [negb].
  destruct (loop_times_multiples (cadence s) (TimeSlab.endtime slab) HK fuel
              (Qceiling (TimeSlab.starttime slab / cadence s))
              (ceil (TimeSlab.starttime slab / cadence s) * cadence s))
    as [l0 [Hl0 _]]; [reflexivity|lia|].
  rewrite Hl0. eexists. reflexivity.
Qed.

Lemma attempt_accepts (fuel : nat) (s : TimeStepper) :
  always_converges -> never_refuses ->
  (exists l, saved_times fuel (next_slab s) s = Some l) ->
  exists s', createTimeSlab fuel s = Some (true, s').
Proof.
  intros Hconv Hpass [l0 Hl0]. rewrite createTimeSlab_eq.
  unfold next_slab in Hl0. destruct (Qeq_bool (t s) 0).
  - rewrite createFirstTimeSlab_eq. cbv zeta.
    unfold converged. rewrite Hconv, Hl0. cbn [negb].
    destruct (Adaptivity_fixed _) eqn:Hfx; cbn [negb];
      [eexists; reflexivity|].
    match goal with
    | |- context [Adaptivity_accept ?sl ?u0 ?a] =>
        destruct (Hpass sl u0 a) as [H|H]
    end.
    + congruence.
    + rewrite H. cbn [negb]. eexists. reflexivity.
  - rewrite createGeneralTimeSlab_eq. cbv zeta.
    unfold converged. rewrite Hconv, Hl0. cbn [negb]. eexists. reflexivity.
Qed.

Lemma next_slab_covers (delta : real) (s : TimeStepper) :
  slabs_cover delta -> t s < T s ->
  (t s + delta <= TimeSlab.endtime (next_slab s) \/
   TimeSlab.endtime (next_slab s) == T s) /\
  TimeSlab.endtime (next_slab s) <= T s.
Proof.
  intros [Hsimple Hrec] Hlt. unfold next_slab.
  destruct (Qeq_bool (t s) 0); simpl; [apply Hsimple|apply Hrec]; exact Hlt.
Qed.

Lemma solve_loop_step (n fuel : nat) (s s1 : TimeStepper) :
  _finished s = false ->
  createTimeSlab (S fuel) s = Some (true, s1) ->
  solve_loop (S n) (S fuel) s = solve_loop n (S fuel) s1.
Proof.
  intros Hfin Hc. cbn [solve_loop]. unfold finished, step, gets, bind.
  rewrite Hfin. cbn [negb step_loop]. unfold bind. rewrite Hc. reflexivity.
Qed.

Lemma solve_loop_terminates (delta : real) (fuel : nat) :
  0 < delta -> always_converges -> never_refuses -> slabs_cover delta ->
  forall (k n : nat) (s : TimeStepper),
    (k < n)%nat ->
    0 <= t s -> 0 < T s -> (_finished s = false -> t s < T s) ->
    (save_solution s = false \/
     ((0 < no_samples s)%Z /\ (Z.to_nat (no_samples s) <= S fuel)%nat)) ->
    T s - t s <= inject_Z (Z.of_nat k) * delta ->
    exists s', solve_loop n (S fuel) s = Some (tt, s') /\ _finished s' = true.
Proof.
  intros Hdelta Hconv Hpass Hcover.
  induction k as [|k IH]; intros n s Hn H0 HT Hlt Hsave Hmeas;
    (destruct n as [|n]; [lia|]);
    destruct (_finished s) eqn:Hfin;
    try (exists s; split; [|exact Hfin];
         cbn [solve_loop]; unfold finished, gets, bind; rewrite Hfin;
         reflexivity).
  - specialize (Hlt eq_refl).
    change (inject_Z (Z.of_nat 0)) with 0 in Hmeas. lra.
  - specialize (Hlt eq_refl).
    destruct (next_slab_covers delta s Hcover Hlt) as [Hfar Hend].
    assert (Hsaved : exists l, saved_times (S fuel) (next_slab s) s = Some l).
    { destruct Hsave as [Hoff|[Hpos Hfuel]].
      - exists []. now apply saved_times_off.
      - destruct (save_solution s) eqn:Hsv; [|exists []; now apply saved_times_off].
        apply saved_times_bounded; try assumption.
        now rewrite next_slab_starttime. }
    destruct (attempt_accepts (S fuel) s Hconv Hpass Hsaved) as [s1 Hc].
    rewrite (solve_loop_step n fuel s s1 Hfin Hc).
    apply attempt_accepted in Hc. cbv zeta in Hc.
    destruct Hc as (_ & Ht & HT' & _ & Hf & _ & Hns & Hsv & _).
    unfold TimeSlab.finished in Hf. rewrite next_slab_reach, Hfin in Hf.
    assert (Hk : inject_Z (Z.of_nat (S k)) == inject_Z (Z.of_nat k) + 1).
    { rewrite Nat2Z.inj_succ. unfold Z.succ. now rewrite inject_Z_plus. }
    assert (Hk0 : 0 <= inject_Z (Z.of_nat k)).
    { change 0 with (inject_Z 0). rewrite <- Zle_Qle. lia. }
    rewrite Hk in Hmeas.
    apply IH.
    + lia.
    + rewrite Ht. destruct Hfar; lra.
    + now rewrite HT'.
    + rewrite Hf, Ht, HT'.
      destruct (Qeq_bool (TimeSlab.endtime (next_slab s)) (T s)) eqn:He;
        [discriminate|].
      apply Qeq_bool_neq in He. intros _.
      destruct (Qlt_le_dec (TimeSlab.endtime (next_slab s)) (T s)) as [H|H];
        [exact H|].
      exfalso. apply He. now apply Qle_antisym.
    + now rewrite Hns, Hsv.
    + rewrite Ht, HT'. destruct Hfar as [Hfar|Hfar]; nra.
Qed.

(** With collaborators that cooperate, [solve] terminates: if the iteration
    converges on every slab, the residual check refuses none, and every
    slab covers at least [delta > 0] of what is left of [[t, T]] or all of
    it, then for a problem with [T > 0] (and, with saving on, a positive
    sample count) [solve] comes back with a finished stepper once the loops
    are given enough fuel. *)
Theorem solve_terminates (delta : real) (ode : ODE) (n : Z) (sv : bool) :
  0 < delta -> 0 < ode_endtime ode -> (sv = false \/ (0 < n)%Z) ->
  always_converges -> never_refuses -> slabs_cover delta ->
  exists fuel0, forall fuel, (fuel0 <= fuel)%nat ->
    exists s, solve fuel ode n sv = Some s /\ _finished s = true.
Proof.
  intros Hdelta HT Hsave Hconv Hpass Hcover.
  set (c := Qceiling (ode_endtime ode / delta)).
  assert (Hc : ode_endtime ode <= inject_Z c * delta).
  { apply multiple_ge; [exact Hdelta|]. unfold c. lia. }
  assert (Hc0 : (0 <= c)%Z).
  { destruct (Z_lt_le_dec c 0) as [Hneg|Hpos]; [|exact Hpos].
    assert (H : inject_Z c <= 0).
    { change 0 with (inject_Z 0). rewrite <- Zle_Qle. lia. }
    nra. }
  exists (S (Nat.max (Z.to_nat c) (Z.to_nat n))).
  intros fuel Hfuel. destruct fuel as [|fuel]; [lia|].
  destruct (solve_loop_terminates delta fuel Hdelta Hconv Hpass Hcover
              (Z.to_nat c) (S fuel) (TimeStepper_create ode n sv))
    as (s & Hs & Hfin).
  - lia.
  - apply Qle_refl.
  - exact HT.
  - intros _. exact HT.
  - simpl. destruct Hsave as [->|Hn]; [now left|].
    destruct sv; [right; split; [exact Hn|lia]|now left].
  - simpl. rewrite Z2Nat.id by exact Hc0. lra.
  - exists s. unfold solve. rewrite Hs. now split.
Qed.

(** ** The sign of the stabilized step *)


End Further.

(** * Concrete runs for the further properties *)

Lemma toy_advances (fixed_step : bool) (damping : option (real * Z)) :
  @slabs_advance (toy fixed_step damping).
Proof.
  split; simpl; intros; unfold toy_slab_end, std_min;
    repeat match goal with
           | |- context [Qlt_le_dec ?a ?b] => destruct (Qlt_le_dec a b)
           end; lra.
Qed.

Lemma steady_covers (k : real) : 0 < k -> @slabs_cover (steady k) k.
Proof.
  intros Hk. split; simpl; intros; unfold toy_slab_end, std_min;
    repeat match goal with
           | |- context [Qlt_le_dec ?a ?b] => destruct (Qlt_le_dec a b)
           end;
    (split; [first [left; lra | right; reflexivity | lra]|lra]).
Qed.

Lemma demo_silent_run_ok :
  run demo_silent (fst demo_silent_run) (snd demo_silent_run).
Proof.
  apply (run_exec_sound demo_silent 100 0 [] demo_silent).
  - apply run_start.
  - vm_compute. reflexivity.
Qed.

Lemma demo_partial_ok : run demo_start (fst demo_partial) (snd demo_partial).
Proof.
  apply (run_exec_sound demo_start 5 100 [] demo_start).
  - apply run_start.
  - vm_compute. reflexivity.
Qed.

Lemma solve_ends_finished_witness :
  (exists l, l <> [] /\ run demo_start l demo_solved) /\
  _finished demo_solved = true /\ t demo_solved == 10 /\ p demo_solved = 1 /\
  T demo_solved = 10 /\ no_samples demo_solved = 5%Z /\
  save_solution demo_solved = true /\ N demo_solved = 1%Z.
Proof.
  apply (solve_ends_finished (C := toy false None) 100 (decay 10) 5 true).
  vm_compute. reflexivity.
Defined.

Lemma step_retries_without_bound_witness :
  (forall fuel s,
      exists s',
        createTimeSlab (C := stubborn) fuel s = Some (false, s') /\
        t s' = t s) /\
  (forall fuel s, step (C := stubborn) fuel s = None) /\
  (forall fuel ode n sv, solve (C := stubborn) fuel ode n sv = None).
Proof.
  apply (step_retries_without_bound (C := stubborn)).
  intros slab u0 a fx. reflexivity.
Defined.

Lemma step_changes_by_one_slab_witness :
  exists s1,
    same_outside_collaborators demo_start s1 /\
    createTimeSlab 10 s1 = Some (true, snd demo_step) /\
    TimeSlab.starttime (next_slab s1) = t demo_start /\
    fst demo_step = TimeSlab.endtime (next_slab s1) /\
    t (snd demo_step) = fst demo_step /\ T (snd demo_step) = T demo_start /\
    no_samples (snd demo_step) = no_samples demo_start /\
    save_solution (snd demo_step) = save_solution demo_start /\
    N (snd demo_step) = N demo_start.
Proof.
  apply (step_changes_by_one_slab 10 demo_start).
  vm_compute. reflexivity.
Defined.

Lemma step_advances_time_witness :
  t demo_start < fst demo_step /\ fst demo_step <= T demo_start /\
  t (snd demo_step) = fst demo_step.
Proof.
  apply (step_advances_time 10 demo_start (snd demo_step)).
  - apply toy_advances.
  - reflexivity.
  - vm_compute. reflexivity.
Defined.

Lemma saving_off_writes_nothing_witness :
  createTimeSlab 7 demo_silent = createTimeSlab 0 demo_silent /\
  file (snd demo_silent_run) = file demo_silent.
Proof.
  split.
  - apply (proj1 (saving_off_writes_nothing (C := toy false None))).
    reflexivity.
  - apply (proj2 (saving_off_writes_nothing (C := toy false None))
             demo_silent (fst demo_silent_run)).
    + exact demo_silent_run_ok.
    + reflexivity.
Defined.

Lemma save_hangs_on_negative_interval_witness :
  (forall fuel, save fuel (RecursiveTimeSlab demo_backwards) demo_backwards
                = None) /\
  (forall fuel, createGeneralTimeSlab fuel demo_backwards = None).
Proof.
  destruct (save_hangs_on_negative_interval
              (RecursiveTimeSlab demo_backwards) demo_backwards)
    as [Hsave Hattempt]; try reflexivity.
  split; [exact Hsave|]. apply Hattempt; reflexivity.
Defined.

Lemma progress_is_fraction_witness :
  p (snd demo_partial) == t (snd demo_partial) / T (snd demo_partial) /\
  0 <= p (snd demo_partial) /\ p (snd demo_partial) <= 1.
Proof.
  destruct (progress_is_fraction demo_start (fst demo_partial)
              (snd demo_partial) demo_partial_ok)
    as [Hp Hbounds]; [reflexivity|reflexivity|].
  split; [exact Hp|]. apply Hbounds.
  - apply Qle_refl.
  - simpl. lra.
  - apply invariant_check. vm_compute. reflexivity.
Defined.

Lemma commits_follow_accepted_slabs_witness :
  (exists pre mid,
      calls (snd demo_next) =
      calls (snd demo_partial) ++
      pre :: Call_iterate (next_slab (snd demo_partial)) ::
      mid ++ [if fst demo_next
              then Call_Solution_shift
                     (TimeSlab.endtime (next_slab (snd demo_partial)))
              else Call_reset] /\
      Forall (fun c => is_iterate c = false /\ is_reset c = false /\
                       is_commit c = false) (pre :: mid)) /\
  shift_calls (calls (snd demo_run)) = map TimeSlab.endtime (fst demo_run) /\
  count_calls is_iterate (calls (snd demo_run)) =
  (List.length (fst demo_run) + count_calls is_reset (calls (snd demo_run)))%nat.
Proof.
  split.
  - apply (proj1 (commits_follow_accepted_slabs (C := toy false None)) 100%nat).
    vm_compute. reflexivity.
  - apply (proj2 (commits_follow_accepted_slabs (C := toy false None))
             (decay 10) 5%Z true).
    exact demo_run_ok.
Defined.

Lemma residual_check_stops_after_first_slab_witness :
  count_calls is_residual_query (calls (snd demo_next)) =
  count_calls is_residual_query (calls (snd demo_partial)).
Proof.
  apply (residual_check_stops_after_first_slab (C := toy false None)
           (decay 10) 5 true (fst demo_partial) (snd demo_partial) 100
           (fst demo_next)).
  - exact demo_partial_ok.
  - eapply Forall_impl; [|apply invariant_check; vm_compute; reflexivity].
    intros slab [H _]. exact H.
  - vm_compute. discriminate.
  - vm_compute. reflexivity.
Defined.

Lemma solve_terminates_witness :
  exists fuel0, forall fuel, (fuel0 <= fuel)%nat ->
    exists s,
      solve (C := steady (1 # 2)) fuel (decay 2) 4 true = Some s /\
      _finished s = true.
Proof.
  apply (solve_terminates (C := steady (1 # 2)) (1 # 2)).
  - reflexivity.
  - reflexivity.
  - right. reflexivity.
  - intros slab u0 a fx. reflexivity.
  - intros slab u0 a. left. reflexivity.
  - apply steady_covers. reflexivity.
Defined.


(** * Sampling in double precision *)









